(** * HTTP traffic dump logging: pkg/util/logging.go

    A shallow embedding of the request/response dump subsystem of
    [pkg/util/logging.go] and the properties of it that the design
    document states.

    Go strings are byte strings; they are modelled by [string] (a list of
    8-bit [ascii] characters).  A Go [error] value is [option error]
    ([None] is [nil]).  An [http.Header] is a [map[string][]string], here a
    [gmap string (list string)].  The package-level variables [Log],
    [requestLogFile] and [responseLogFile] are fields of the program state,
    which every function threads explicitly.  The [*http.Request] and
    [*http.Response] arguments are taken to be non-nil.

    Everything the file calls outside the package (logrus, afero, os,
    filepath, time, httputil) is a parameter: an environment answers each
    call and every call is recorded with its answer, so that what a function
    did, and in which order, can be stated. *)

From Stdlib Require Import ZArith List Ascii String.
From stdpp Require Import gmap strings list.

Local Open Scope string_scope.
Local Open Scope list_scope.

(* ===================================================================== *)
(** ** Go library functions used by the file *)
(* ===================================================================== *)

Module strings.

(** [strings.HasPrefix(s, prefix)]: reports whether [s] begins with
    [prefix].  The first argument is the string under test, the second
    the prefix looked for. *)
Definition HasPrefix (s prefix : string) : bool := String.prefix prefix s.

End strings.

Module fmt.

(** [fmt.Sprintf] restricted to the verb the file uses, [%s] with string
    operands: every [%s] is replaced by the next operand, every other
    byte of the format is copied. *)
Fixpoint Sprintf (format : string) (args : list string) : string :=
  match format with
  | EmptyString => EmptyString
  | String "%"%char (String "s"%char rest) =>
      match args with
      | a :: args' => a ++ Sprintf rest args'
      | [] => "%!s(MISSING)" ++ Sprintf rest []
      end
  | String c rest => String c (Sprintf rest args)
  end.

End fmt.

(** The line feed, written as a raw newline inside the Go literals. *)
Definition LF : string := String (Ascii.ascii_of_nat 10) EmptyString.

(* ===================================================================== *)
(** ** BodyDumpPolicy: [shouldDumpBody] *)
(* ===================================================================== *)

Definition shouldDumpBody (contentType : string) : bool :=
  if strings.HasPrefix "text/" contentType then true
  else if strings.HasPrefix "application/json" contentType then true
  else if strings.HasPrefix "application/xml" contentType then true
  else false.

(** The policy the design document describes: the content type starts with
    one of the three prefixes. *)
Definition starts_with_dumpable_prefix (contentType : string) : bool :=
  String.prefix "text/" contentType
  || String.prefix "application/json" contentType
  || String.prefix "application/xml" contentType.

(* ===================================================================== *)
(** ** Data: errors, handles, HTTP messages *)
(* ===================================================================== *)

(** A non-nil Go [error], identified by its message. *)
Record error := Err { Error : string }.

(** Interface values of the collaborating libraries ([afero.File],
    [afero.Fs], [*logrus.Logger]) are opaque handles; their state lives in
    the external world. *)
Inductive File := FileHandle (fd : nat).
Inductive Fs := FsObject (id : nat).
Inductive Logger := LoggerObject (id : nat).
Inductive Level := InfoLevel | DebugLevel.

Module http.

Abbreviation Header := (gmap string (list string)).

Module Request.
Record t := { Method : string; URL : string; Header : Header;
              Body : string }.
End Request.

Module Response.
Record t := { Status : string; Header : Header; Body : string }.
End Response.

End http.

(** [os] constants (Linux values) and the permission bits of the file. *)
Module os.
Definition O_WRONLY : Z := 1.
Definition O_CREATE : Z := 64.
Definition O_TRUNC : Z := 512.
Definition O_APPEND : Z := 1024.
Definition PathSeparator : ascii := "/"%char.
End os.

Definition perm_0777 : Z := 511.
Definition perm_0666 : Z := 438.
Definition perm_0644 : Z := 420.

(** How a call ends other than by returning. *)
Inductive Abort :=
| IndexOutOfRange (index : Z) (len : nat)
| NilDereference
| ProcessTerminated.

Inductive Outcome (A : Type) :=
| Returned (a : A)
| Aborted (why : Abort).
Arguments Returned {A} a.
Arguments Aborted {A} why.

(** Calls on the logger; none of them returns a value. *)
Inductive LoggerCall :=
| LoggerSetLevel (l : option Logger) (level : Level)
| LogSetOutputStdout
| LoggerSetOutputStderrAnd (l : option Logger) (file : option File)
| LoggerInfo (l : option Logger) (args : list string)
| LoggerDebug (l : option Logger) (args : list string).

(** Every call that leaves the package, with what it answered. *)
Inductive Event :=
| EvLogNew (l : Logger)
| EvLogger (c : LoggerCall)
| EvLookupEnv (key : string) (r : option string)
| EvAbs (path : string) (r : string * option error)
| EvStat (fs : Fs) (name : string) (err : option error)
| EvMkdir (fs : Fs) (name : string) (perm : Z) (err : option error)
| EvNowFormat (layout : string) (r : string)
| EvOpenFile (fs : Fs) (name : string) (flag perm : Z)
             (r : option File * option error)
| EvFailOnError (err : option error) (msg : string) (returns : bool)
| EvDumpRequestOut (req : http.Request.t) (body : bool)
                   (r : string * option error)
| EvDumpResponse (resp : http.Response.t) (body : bool)
                 (r : string * option error)
| EvWriteString (f : File) (s : string) (r : Z * option error)
| EvSync (f : File) (err : option error).

(** The error an external call answered with, if any. *)
Definition ev_error (e : Event) : option error :=
  match e with
  | EvAbs _ r => snd r
  | EvStat _ _ err => err
  | EvMkdir _ _ _ err => err
  | EvOpenFile _ _ _ _ r => snd r
  | EvDumpRequestOut _ _ r => snd r
  | EvDumpResponse _ _ r => snd r
  | EvWriteString _ _ r => snd r
  | EvSync _ err => err
  | _ => None
  end.

(** The texts handed to [WriteString] on file [f], in order. *)
Fixpoint writes_to (f : File) (evs : list Event) : list string :=
  match evs with
  | [] => []
  | EvWriteString f' s _ :: evs' =>
      match f, f' with
      | FileHandle a, FileHandle b =>
          if Nat.eqb a b then s :: writes_to f evs' else writes_to f evs'
      end
  | _ :: evs' => writes_to f evs'
  end.

Definition is_open (e : Event) : bool :=
  match e with EvOpenFile _ _ _ _ _ => true | _ => false end.

(** The flags [prepareLogFile] opens a dump file with. *)
Definition dump_file_flags : Z :=
  Z.lor (Z.lor os.O_TRUNC os.O_CREATE) os.O_WRONLY.

(** [ev] is a failed step of channel initialization with error [e]: a path
    resolution, or an open with the flags of [prepareLogFile], that answered
    [e]. *)
Definition channel_failure (e : error) (ev : Event) : Prop :=
  match ev with
  | EvAbs _ r => snd r = Some e
  | EvOpenFile _ _ flag _ r => flag = dump_file_flags /\ snd r = Some e
  | _ => False
  end.

(** The external world: the file system behind [afero.Fs], the process
    environment, the clock, the logger and the HTTP serializer.  [W] is the
    state of that world; each operation answers and moves it on. *)
Class Env (W : Type) := {
  env_log_New : W -> W * Logger;
  env_Logger : W -> LoggerCall -> W;
  env_LookupEnv : W -> string -> option string;
  env_Abs : W -> string -> string * option error;
  env_Stat : W -> Fs -> string -> W * option error;
  env_IsNotExist : option error -> bool;
  env_Mkdir : W -> Fs -> string -> Z -> W * option error;
  env_NowFormat : W -> string -> W * string;
  env_OpenFile : W -> Fs -> string -> Z -> Z -> W * (option File * option error);
  env_FailOnError : W -> option error -> string -> W * bool;
  env_DumpRequestOut :
    W -> http.Request.t -> bool -> W * (string * option error);
  env_DumpResponse :
    W -> http.Response.t -> bool -> W * (string * option error);
  env_WriteString : W -> File -> string -> W * (Z * option error);
  env_Sync : W -> File -> W * option error
}.

(* ===================================================================== *)
(** ** Program state and the monad of the package's functions *)
(* ===================================================================== *)

Section Logging.

Context {W : Type} `{Env W}.

(** The package-level variables and the external world. *)
Record State := mkState {
  Log : option Logger;
  requestLogFile : option File;
  responseLogFile : option File;
  world : W
}.

(** What running a function from a state gives: how it ended, the state
    it left, and the external calls it made, in order. *)
Record Run (A : Type) := mkRun {
  outcome : Outcome A;
  final : State;
  events : list Event
}.
Arguments mkRun {A} _ _ _.
Arguments outcome {A} _.
Arguments final {A} _.
Arguments events {A} _.

Definition M (A : Type) : Type := State -> Run A.

Definition ret {A} (a : A) : M A := fun st => mkRun (Returned a) st [].

Definition bind {A B} (m : M A) (k : A -> M B) : M B :=
  fun st =>
    let r := m st in
    match outcome r with
    | Returned a =>
        let r' := k a (final r) in
        mkRun (outcome r') (final r') (events r ++ events r')
    | Aborted why => mkRun (Aborted why) (final r) (events r)
    end.

Definition abort {A} (why : Abort) : M A :=
  fun st => mkRun (Aborted why) st [].

Definition gets {A} (f : State -> A) : M A :=
  fun st => mkRun (Returned (f st)) st [].

Definition with_world (st : State) (w : W) : State :=
  mkState (Log st) (requestLogFile st) (responseLogFile st) w.

(** One external call: the world moves on and the call is recorded. *)
Definition extern {A} (call : W -> W * A) (ev : A -> Event) : M A :=
  fun st =>
    let (w', a) := call (world st) in
    mkRun (Returned a) (with_world st w') [ev a].

Definition set_Log (l : option Logger) : M unit :=
  fun st =>
    mkRun (Returned tt)
          (mkState l (requestLogFile st) (responseLogFile st) (world st)) [].

Definition set_requestLogFile (f : option File) : M unit :=
  fun st =>
    mkRun (Returned tt)
          (mkState (Log st) f (responseLogFile st) (world st)) [].

Definition set_responseLogFile (f : option File) : M unit :=
  fun st =>
    mkRun (Returned tt)
          (mkState (Log st) (requestLogFile st) f (world st)) [].

End Logging.

Arguments State W : clear implicits.
Arguments with_world {W} st w.
Arguments Run W A : clear implicits.
Arguments M W A : clear implicits.
Arguments mkRun {W A} _ _ _.
Arguments outcome {W A} _.
Arguments final {W A} _.
Arguments events {W A} _.

(** A run surfaces channel failures: if a step of channel initialization
    failed with [e] during the run, the run returned [e]. *)
Definition surfaces {W : Type} (e : error) (r : Run W (option error)) : Prop :=
  forall ev, In ev (events r) -> channel_failure e ev ->
             outcome r = Returned (Some e).

Declare Scope go_scope.
Delimit Scope go_scope with go.
Notation "'let*' x := m 'in' k" := (bind m (fun x => k))
  (at level 10, x name, m at level 100, k at level 200) : go_scope.
Notation "'let*' ( x , y ) := m 'in' k" :=
  (bind m (fun xy => let (x, y) := xy in k))
  (at level 10, x name, y name, m at level 100, k at level 200) : go_scope.
Notation "m ;; k" := (bind m (fun _ => k))
  (at level 100, right associativity) : go_scope.
Local Open Scope go_scope.

Section Package.

Context {W : Type} `{Env W}.

(** *** External calls *)

Definition log_New : M W Logger :=
  extern (fun w => env_log_New w) EvLogNew.

Definition logger (c : LoggerCall) : M W unit :=
  extern (fun w => (env_Logger w c, tt)) (fun _ => EvLogger c).

(** Method calls on the [*logrus.Logger] held in [Log]: as for a nil
    [afero.File], calling a method of the nil logger is a nil
    dereference. *)
Definition Log_method (call : option Logger -> LoggerCall) : M W unit :=
  let* l := gets Log in
  match l with
  | Some _ => logger (call l)
  | None => abort NilDereference
  end.

Definition Log_SetLevel (level : Level) : M W unit :=
  Log_method (fun l => LoggerSetLevel l level).

Definition Log_SetOutput_MultiWriter_Stderr (file : option File) : M W unit :=
  Log_method (fun l => LoggerSetOutputStderrAnd l file).

Definition Log_Info (args : list string) : M W unit :=
  Log_method (fun l => LoggerInfo l args).

Definition Log_Debug (args : list string) : M W unit :=
  Log_method (fun l => LoggerDebug l args).

Definition os_LookupEnv (key : string) : M W (option string) :=
  extern (fun w => (w, env_LookupEnv w key)) (EvLookupEnv key).

Definition filepath_Abs (path : string) : M W (string * option error) :=
  extern (fun w => (w, env_Abs w path)) (EvAbs path).

Definition fs_Stat (fs : Fs) (name : string) : M W (option error) :=
  extern (fun w => env_Stat w fs name) (EvStat fs name).

Definition fs_Mkdir (fs : Fs) (name : string) (perm : Z) : M W (option error) :=
  extern (fun w => env_Mkdir w fs name perm) (EvMkdir fs name perm).

Definition time_Now_Format (layout : string) : M W string :=
  extern (fun w => env_NowFormat w layout) (EvNowFormat layout).

Definition fs_OpenFile (fs : Fs) (name : string) (flag perm : Z)
  : M W (option File * option error) :=
  extern (fun w => env_OpenFile w fs name flag perm)
         (EvOpenFile fs name flag perm).

(** [FailOnError] belongs to the package but is defined in another file;
    whether it returns or ends the process is left to the environment. *)
Definition FailOnError (err : option error) (msg : string) : M W unit :=
  let* returns := extern (fun w => env_FailOnError w err msg)
                         (EvFailOnError err msg) in
  if (returns : bool) then ret tt else abort ProcessTerminated.

Definition httputil_DumpRequestOut (req : http.Request.t) (body : bool)
  : M W (string * option error) :=
  extern (fun w => env_DumpRequestOut w req body) (EvDumpRequestOut req body).

Definition httputil_DumpResponse (resp : http.Response.t) (body : bool)
  : M W (string * option error) :=
  extern (fun w => env_DumpResponse w resp body) (EvDumpResponse resp body).

(** Method calls on an [afero.File] interface value; calling a method of
    the nil interface is a nil dereference. *)
Definition File_WriteString (file : option File) (s : string)
  : M W (Z * option error) :=
  match file with
  | Some f => extern (fun w => env_WriteString w f s) (EvWriteString f s)
  | None => abort NilDereference
  end.

Definition File_Sync (file : option File) : M W (option error) :=
  match file with
  | Some f => extern (fun w => env_Sync w f) (EvSync f)
  | None => abort NilDereference
  end.

(** Slice indexing [s[i]] with Go's bounds check. *)
Definition index (s : list string) (i : Z) : M W string :=
  if (0 <=? i)%Z && (i <? Z.of_nat (length s))%Z
  then match s !! Z.to_nat i with
       | Some x => ret x
       | None => abort (IndexOutOfRange i (length s))
       end
  else abort (IndexOutOfRange i (length s)).

End Package.

(* ===================================================================== *)
(** ** The package's functions *)
(* ===================================================================== *)

(** The two raw-string formats of the dump records. *)
Definition separator : string := "=========================".

Definition request_record_format : string :=
  "Request-ID: %s" ++ LF ++ "%s" ++ LF ++ separator ++ LF.

Definition response_id_format : string := "Request-ID: %s" ++ LF.

Definition response_record_format : string :=
  "%s" ++ LF ++ separator ++ LF.

Section Functions.

Context {W : Type} `{Env W}.

Definition prepareLogFile (fs : Fs) (file : string)
  : M W (option File * option error) :=
  fs_OpenFile fs file
    (Z.lor (Z.lor os.O_TRUNC os.O_CREATE) os.O_WRONLY) perm_0644.

Definition setupRequestLog (fs : Fs) : M W (option error) :=
  let* found := os_LookupEnv "MONACO_REQUEST_LOG" in
  match found with
  | Some logFilePath =>
      let* (logFilePath, err) := filepath_Abs logFilePath in
      match err with
      | Some _ => ret err
      | None =>
          Log_Debug ["request log activated at %s"; logFilePath] ;;
          let* (handle, err) := prepareLogFile fs logFilePath in
          match err with
          | Some _ => ret err
          | None => set_requestLogFile handle ;; ret None
          end
      end
  | None => Log_Debug ["request log not activated"] ;; ret None
  end.

Definition setupResponseLog (fs : Fs) : M W (option error) :=
  let* found := os_LookupEnv "MONACO_RESPONSE_LOG" in
  match found with
  | Some logFilePath =>
      let* (logFilePath, err) := filepath_Abs logFilePath in
      match err with
      | Some _ => ret err
      | None =>
          Log_Debug ["response log activated at %s"; logFilePath] ;;
          let* (handle, err) := prepareLogFile fs logFilePath in
          match err with
          | Some _ => ret err
          | None => set_responseLogFile handle ;; ret None
          end
      end
  | None => Log_Debug ["response log not activated"] ;; ret None
  end.

Definition SetupLogging (fs : Fs) (verbose : bool) : M W (option error) :=
  let* l := log_New in
  set_Log (Some l) ;;
  Log_SetLevel InfoLevel ;;
  logger LogSetOutputStdout ;;
  (if verbose then Log_SetLevel DebugLevel else ret tt) ;;
  let* err := fs_Stat fs ".logs" in
  (if env_IsNotExist err then
     let* err := fs_Mkdir fs ".logs" perm_0777 in
     match err with
     | Some _ => FailOnError err "could not create directory"
     | None => ret tt
     end
   else ret tt) ;;
  let* stamp := time_Now_Format "20060102-150405" in
  let logName :=
    (".logs" ++ String os.PathSeparator EmptyString ++ stamp ++ ".log")%string in
  let* (file, err) :=
    fs_OpenFile fs logName
      (Z.lor (Z.lor os.O_CREATE os.O_WRONLY) os.O_APPEND) perm_0666 in
  match err with
  | None => Log_SetOutput_MultiWriter_Stderr file
  | Some _ => Log_Info ["Failed to log to file, using default stderr"]
  end ;;
  match err with
  | Some _ => ret err
  | None =>
      let* err := setupRequestLog fs in
      match err with
      | Some _ => ret err
      | None =>
          let* err := setupResponseLog fs in
          match err with
          | Some _ => ret err
          | None => ret None
          end
      end
  end.

Definition IsRequestLoggingActive : M W bool :=
  gets (fun st => match requestLogFile st with Some _ => true | None => false end).

Definition IsResponseLoggingActive : M W bool :=
  gets (fun st => match responseLogFile st with Some _ => true | None => false end).

(** The computation of [dumpBody], which [LogRequest] (lines 139-145)
    and [LogResponse] (lines 172-178) both spell out on the header of
    their message: false unless a "Content-Type" entry is present, else
    the policy applied to the element at index [len - 1] of its values. *)
Definition dumpBodyFor (header : http.Header) : M W bool :=
  match header !! "Content-Type" with
  | Some contentTypes =>
      let* contentType :=
        index contentTypes (Z.of_nat (length contentTypes) - 1) in
      ret (shouldDumpBody contentType)
  | None => ret false
  end.

Definition LogRequest (id : string) (request : http.Request.t)
  : M W (option error) :=
  let* active := IsRequestLoggingActive in
  if negb active then ret None
  else
    let* dumpBody := dumpBodyFor (http.Request.Header request) in
    let* (dump, err) := httputil_DumpRequestOut request dumpBody in
    match err with
    | Some _ => ret err
    | None =>
        let stringDump := dump in
        let* file := gets requestLogFile in
        let* (_n, err) :=
          File_WriteString file
            (fmt.Sprintf request_record_format [id; stringDump]) in
        match err with
        | Some _ => ret err
        | None =>
            let* file := gets requestLogFile in
            File_Sync file
        end
    end.

Definition LogResponse (id : string) (response : http.Response.t)
  : M W (option error) :=
  let* active := IsResponseLoggingActive in
  if negb active then ret None
  else
    let* dumpBody := dumpBodyFor (http.Response.Header response) in
    let* (dump, err) := httputil_DumpResponse response dumpBody in
    match err with
    | Some _ => ret err
    | None =>
        (* [err] is nil here; it stays nil when the conditional is skipped *)
        let* err :=
          if negb (String.eqb id EmptyString) then
            let* file := gets responseLogFile in
            let* (_n, err) :=
              File_WriteString file (fmt.Sprintf response_id_format [id]) in
            ret err
          else ret None in
        match err with
        | Some _ => ret err
        | None =>
            let stringDump := dump in
            let* file := gets responseLogFile in
            let* (_n, err) :=
              File_WriteString file
                (fmt.Sprintf response_record_format [stringDump]) in
            match err with
            | Some _ => ret err
            | None =>
                let* file := gets responseLogFile in
                File_Sync file
            end
        end
    end.

End Functions.

(* ===================================================================== *)
(** ** An in-memory environment *)
(* ===================================================================== *)

(** A small concrete world on which the functions can be run: environment
    variables, a table of open files (the descriptor is the position in the
    table), paths that refuse to be opened, and switches that make the
    working directory, writes or syncs fail. *)
Module Mem.

Record World := mkWorld {
  environ : list (string * string);
  cwd : option string;
  files : list (string * string);
  locked : list string;
  disk_full : bool;
  sync_broken : bool
}.

Fixpoint assoc (k : string) (l : list (string * string)) : option string :=
  match l with
  | [] => None
  | (k', v) :: l' => if String.eqb k k' then Some v else assoc k l'
  end.

Definition mem (k : string) (l : list string) : bool :=
  existsb (String.eqb k) l.

Definition with_files (w : World) (fl : list (string * string)) : World :=
  mkWorld (environ w) (cwd w) fl (locked w) (disk_full w) (sync_broken w).

Definition not_exist : error := Err "file does not exist".

Definition Abs (w : World) (path : string) : string * option error :=
  if String.prefix "/" path then (path, None)
  else match cwd w with
       | Some d => ((d ++ "/" ++ path)%string, None)
       | None => (EmptyString, Some (Err "getwd: no such file or directory"))
       end.

Definition Stat (w : World) (name : string) : World * option error :=
  match assoc name (files w) with
  | Some _ => (w, None)
  | None => (w, Some not_exist)
  end.

Definition IsNotExist (err : option error) : bool :=
  match err with
  | Some e => String.eqb (Error e) (Error not_exist)
  | None => false
  end.

Definition OpenFile (w : World) (name : string) (flag : Z)
  : World * (option File * option error) :=
  if mem name (locked w) then (w, (None, Some (Err "permission denied")))
  else
    let old := if Z.eqb (Z.land flag os.O_TRUNC) 0
               then default EmptyString (assoc name (files w))
               else EmptyString in
    (with_files w (files w ++ [(name, old)]),
     (Some (FileHandle (length (files w))), None)).

Definition wire (start : string) (body : string) (withBody : bool) : string :=
  (start ++ LF ++ (if withBody then body else EmptyString))%string.

Definition DumpRequestOut (w : World) (req : http.Request.t) (body : bool)
  : World * (string * option error) :=
  if String.eqb (http.Request.URL req) EmptyString
  then (w, (EmptyString, Some (Err "unsupported protocol scheme")))
  else (w, (wire (http.Request.Method req ++ " " ++ http.Request.URL req)
                 (http.Request.Body req) body, None)).

Definition DumpResponse (w : World) (resp : http.Response.t) (body : bool)
  : World * (string * option error) :=
  if String.eqb (http.Response.Status resp) EmptyString
  then (w, (EmptyString, Some (Err "malformed HTTP status")))
  else (w, (wire (http.Response.Status resp) (http.Response.Body resp) body,
            None)).

Definition WriteString (w : World) (f : File) (s : string)
  : World * (Z * option error) :=
  let (fd) := f in
  if disk_full w then (w, (0%Z, Some (Err "no space left on device")))
  else match files w !! fd with
       | Some (name, content) =>
           (with_files w (<[fd := (name, (content ++ s)%string)]> (files w)),
            (Z.of_nat (String.length s), None))
       | None => (w, (0%Z, Some (Err "file already closed")))
       end.

Definition Sync (w : World) (f : File) : World * option error :=
  if sync_broken w then (w, Some (Err "input/output error")) else (w, None).

#[global] Instance env : Env World := {|
  env_log_New w := (w, LoggerObject 0);
  env_Logger w _ := w;
  env_LookupEnv w key := assoc key (environ w);
  env_Abs := Abs;
  env_Stat w _ name := Stat w name;
  env_IsNotExist := IsNotExist;
  env_Mkdir w _ _ _ := (w, None);
  env_NowFormat w _ := (w, "20200102-030405");
  env_OpenFile w _ name flag _ := OpenFile w name flag;
  env_FailOnError w _ _ := (w, false);
  env_DumpRequestOut := DumpRequestOut;
  env_DumpResponse := DumpResponse;
  env_WriteString := WriteString;
  env_Sync := Sync
|}.

(** Nothing set, nothing open, everything works. *)
Definition quiet : World :=
  mkWorld [] (Some "/work") [] [] false false.

(** Both channels requested through the environment. *)
Definition both_requested : World :=
  mkWorld [("MONACO_REQUEST_LOG", "req.log"); ("MONACO_RESPONSE_LOG", "resp.log")]
          (Some "/work") [] [] false false.

(** Both channels requested, the response file refusing to open. *)
Definition response_locked : World :=
  mkWorld [("MONACO_REQUEST_LOG", "req.log"); ("MONACO_RESPONSE_LOG", "resp.log")]
          (Some "/work") [] ["/work/resp.log"] false false.

(** The state of a freshly started program: all variables nil. *)
Definition start (w : World) : State World := mkState None None None w.

(** Both channels active on descriptors 0 and 1. *)
Definition active (full broken : bool) : State World :=
  mkState (Some (LoggerObject 0)) (Some (FileHandle 0)) (Some (FileHandle 1))
          (mkWorld [] (Some "/work")
                   [("/work/req.log", EmptyString);
                    ("/work/resp.log", EmptyString)]
                   [] full broken).

Definition json_request : http.Request.t :=
  http.Request.Build_t "POST" "https://example.org/api"
    {[ "Content-Type" := ["application/json"] ]} "{}".

Definition multi_request : http.Request.t :=
  http.Request.Build_t "POST" "https://example.org/api"
    {[ "Content-Type" := ["application/json"; "text/plain"] ]} "{}".

Definition bare_request : http.Request.t :=
  http.Request.Build_t "GET" "https://example.org/" ∅ EmptyString.

Definition empty_list_request : http.Request.t :=
  http.Request.Build_t "GET" "https://example.org/"
    {[ "Content-Type" := [] ]} EmptyString.

Definition json_response : http.Response.t :=
  http.Response.Build_t "HTTP/1.1 200 OK"
    {[ "Content-Type" := ["application/json"] ]} "{}".

Definition multi_response : http.Response.t :=
  http.Response.Build_t "HTTP/1.1 200 OK"
    {[ "Content-Type" := ["application/json"; "text/plain"] ]} "{}".

Definition empty_list_response : http.Response.t :=
  http.Response.Build_t "HTTP/1.1 204 No Content"
    {[ "Content-Type" := [] ]} EmptyString.

End Mem.

(* ===================================================================== *)
(** ** The start of [SetupLogging] and the channel sequence *)
(* ===================================================================== *)

(** The flags [SetupLogging] opens the log file with. *)
Definition log_file_flags : Z :=
  Z.lor (Z.lor os.O_CREATE os.O_WRONLY) os.O_APPEND.

(** Calls made by [SetupLogging] before it turns to the channels. *)
Definition is_startup_event (ev : Event) : bool :=
  match ev with
  | EvLogNew _ | EvLogger _ | EvStat _ _ _ | EvMkdir _ _ _ _
  | EvNowFormat _ _ | EvFailOnError _ _ _ => true
  | EvOpenFile _ _ flag _ _ => Z.eqb flag log_file_flags
  | _ => false
  end.

(** Calls made by the channel initializers. *)
Definition is_channel_event (ev : Event) : bool :=
  match ev with
  | EvLookupEnv _ _ | EvAbs _ _ | EvLogger (LoggerDebug _ _) => true
  | EvOpenFile _ _ flag _ _ => Z.eqb flag dump_file_flags
  | _ => false
  end.

Section Channels.
Context {W : Type} `{Env W}.

(** The end of [SetupLogging] (lines 65-73): the request channel, then,
    if that returned nil, the response channel. *)
Definition setupChannels (fs : Fs) : M W (option error) :=
  let* err := setupRequestLog fs in
  match err with
  | Some _ => ret err
  | None =>
      let* err := setupResponseLog fs in
      match err with
      | Some _ => ret err
      | None => ret None
      end
  end.

(** [r] is a run from [st] of the start of [SetupLogging] followed by
    [tail]: the calls [pre] of the start leave the handles and [Log] alone
    and reach [st1]; then either the log file was opened and [tail] ran from
    [st1], or the log file failed to open and its error was returned, or
    [FailOnError] ended the process. *)
Definition startup_then (tail : M W (option error)) (fs : Fs)
           (st : State W) (r : Run W (option error)) : Prop :=
  exists pre st1,
    forallb is_startup_event pre = true
    /\ Log st1 = Log st
    /\ requestLogFile st1 = requestLogFile st
    /\ responseLogFile st1 = responseLogFile st
    /\ ((exists name h,
            List.filter is_open pre
            = [EvOpenFile fs name log_file_flags perm_0666 (h, None)]
            /\ r = mkRun (outcome (tail st1)) (final (tail st1))
                         (pre ++ events (tail st1)))
        \/ (exists name h e,
               List.filter is_open pre
               = [EvOpenFile fs name log_file_flags perm_0666 (h, Some e)]
               /\ r = mkRun (Returned (Some e)) st1 pre)
        \/ (exists err msg,
               List.filter is_open pre = []
               /\ last pre = Some (EvFailOnError err msg false)
               /\ r = mkRun (Aborted ProcessTerminated) st1 pre)).
End Channels.

(** The calls of one channel initializer on the variable [key], with the
    outcome they lead to: the variable is unset; or it is set and its
    resolution fails; or it is set, resolved, and the resolved path is
    opened, the result of the open being the result of the initializer. *)
Definition channel_trace (key : string) (fs : Fs) (evs : list Event)
           (o : Outcome (option error)) : Prop :=
  (exists c, evs = [EvLookupEnv key None; EvLogger c] /\ o = Returned None)
  \/ (exists path p e,
         evs = [EvLookupEnv key (Some path); EvAbs path (p, Some e)]
         /\ o = Returned (Some e))
  \/ (exists path p c h oe,
         evs = [EvLookupEnv key (Some path); EvAbs path (p, None); EvLogger c;
                EvOpenFile fs p dump_file_flags perm_0644 (h, oe)]
         /\ o = Returned oe).

(** The part of the statement about one lookup that found its variable
    set, for a list of calls [post] that follows it and the outcome [o]. *)
Definition resolved_then_opened (fs : Fs) (path : string)
           (post : list Event) (o : Outcome (option error)) : Prop :=
  exists a post1,
    post = EvAbs path a :: post1
    /\ (forall e, snd a = Some e -> post1 = [] /\ o = Returned (Some e))
    /\ (snd a = None ->
        exists c r post2,
          post1 = EvLogger c
                  :: EvOpenFile fs (fst a) dump_file_flags perm_0644 r
                  :: post2
          /\ forall e, snd r = Some e -> post2 = [] /\ o = Returned (Some e)).

(* ===================================================================== *)
(** ** More environments and messages *)
(* ===================================================================== *)

Module Scenario.

(** The log file of the in-memory clock refuses to open. *)
Definition log_locked : Mem.World :=
  Mem.mkWorld [("MONACO_REQUEST_LOG", "req.log")] (Some "/work") []
              [".logs/20200102-030405.log"] false false.

(** Only the request channel is requested. *)
Definition request_only : Mem.World :=
  Mem.mkWorld [("MONACO_REQUEST_LOG", "req.log")] (Some "/work") [] []
              false false.

(** Both channels requested, with no working directory to resolve the
    relative paths against. *)
Definition no_cwd : Mem.World :=
  Mem.mkWorld [("MONACO_REQUEST_LOG", "req.log"); ("MONACO_RESPONSE_LOG", "resp.log")]
              None [] [] false false.

(** Both channels requested, the request file refusing to open. *)
Definition request_locked : Mem.World :=
  Mem.mkWorld [("MONACO_REQUEST_LOG", "req.log"); ("MONACO_RESPONSE_LOG", "resp.log")]
              (Some "/work") [] ["/work/req.log"] false false.

(** The state in which [SetupLogging] calls the channel initializers: the
    logger is installed, no channel is active yet. *)
Definition started (w : Mem.World) : State Mem.World :=
  mkState (Some (LoggerObject 0)) None None w.

Definition charset_request : http.Request.t :=
  http.Request.Build_t "POST" "https://example.org/api"
    {[ "Content-Type" := ["application/json; charset=utf-8"] ]} "{}".

Definition charset_response : http.Response.t :=
  http.Response.Build_t "HTTP/1.1 200 OK"
    {[ "Content-Type" := ["application/json; charset=utf-8"] ]} "{}".

(** The calls of the start of [SetupLogging] in the in-memory world, and
    of a channel initializer whose file opens or refuses to open. *)
Definition startup_calls : list Event :=
  [EvLogNew (LoggerObject 0);
   EvLogger (LoggerSetLevel (Some (LoggerObject 0)) InfoLevel);
   EvLogger LogSetOutputStdout;
   EvStat (FsObject 0) ".logs" (Some Mem.not_exist);
   EvMkdir (FsObject 0) ".logs" perm_0777 None;
   EvNowFormat "20060102-150405" "20200102-030405";
   EvOpenFile (FsObject 0) ".logs/20200102-030405.log" log_file_flags
              perm_0666 (Some (FileHandle 0), None);
   EvLogger (LoggerSetOutputStderrAnd (Some (LoggerObject 0))
                                      (Some (FileHandle 0)))].

Definition channel_calls (what value : string)
           (r : option File * option error) : list Event :=
  [EvAbs value (("/work/" ++ value)%string, None);
   EvLogger (LoggerDebug (Some (LoggerObject 0))
               [(what ++ " log activated at %s")%string;
                ("/work/" ++ value)%string]);
   EvOpenFile (FsObject 0) ("/work/" ++ value)%string dump_file_flags
              perm_0644 r].

End Scenario.

(* ===================================================================== *)
(** ** BodyDumpPolicy as coded *)
(* ===================================================================== *)

(** What [shouldDumpBody] computes: the content type is an initial segment
    of one of the three names, the roles of the two [HasPrefix] operands
    being exchanged with respect to [starts_with_dumpable_prefix]. *)
Lemma shouldDumpBody_spec (contentType : string) :
  shouldDumpBody contentType =
    String.prefix contentType "text/"
    || String.prefix contentType "application/json"
    || String.prefix contentType "application/xml".
Proof.
  unfold shouldDumpBody, strings.HasPrefix.
  destruct (String.prefix contentType "text/"),
           (String.prefix contentType "application/json"),
           (String.prefix contentType "application/xml"); reflexivity.
Qed.

(** C1. [shouldDumpBody] does not implement the documented policy: it
    answers false for "text/plain" and for a JSON type with a charset
    parameter, which both start with a dumpable prefix, and true for the
    empty string and for "app", which do not. *)
Theorem shouldDumpBody_departs_from_policy :
  shouldDumpBody "text/plain" = false
  /\ starts_with_dumpable_prefix "text/plain" = true
  /\ shouldDumpBody "application/json; charset=utf-8" = false
  /\ starts_with_dumpable_prefix "application/json; charset=utf-8" = true
  /\ shouldDumpBody EmptyString = true
  /\ starts_with_dumpable_prefix EmptyString = false
  /\ shouldDumpBody "app" = true
  /\ starts_with_dumpable_prefix "app" = false.
Proof. repeat split; reflexivity. Qed.

(* ===================================================================== *)
(** ** TrafficRecorder *)
(* ===================================================================== *)

(** Case analysis on what the serializer, the file and the id answer. *)
Ltac answer :=
  match goal with
  | |- context [env_DumpRequestOut ?w ?m ?b] =>
      destruct (env_DumpRequestOut w m b) as [? [? [?|]]]
  | |- context [env_DumpResponse ?w ?m ?b] =>
      destruct (env_DumpResponse w m b) as [? [? [?|]]]
  | |- context [env_WriteString ?w ?f ?s] =>
      destruct (env_WriteString w f s) as [? [? [?|]]]
  | |- context [env_Sync ?w ?f] =>
      destruct (env_Sync w f) as [? [?|]]
  | |- context [String.eqb ?id EmptyString] =>
      destruct (String.eqb id EmptyString) eqn:Hid
  end; cbn.

Ltac answers := cbn; repeat answer.

(** A failing call can only sit at the end of a list whose other calls
    all succeeded. *)
Lemma stops_at_error (evs pre post : list Event) (ev : Event) (e : error) :
  evs = pre ++ ev :: post ->
  ev_error ev = Some e ->
  Forall (fun x => ev_error x = None) (removelast evs) ->
  post = [] /\ last evs = Some ev.
Proof.
  intros -> He Hall. destruct post as [|p post].
  - split; [reflexivity|]. apply last_snoc.
  - exfalso. rewrite removelast_app in Hall by discriminate.
    apply Forall_app in Hall as [_ Hall].
    change (removelast (ev :: p :: post)) with (ev :: removelast (p :: post))
      in Hall.
    apply Forall_cons in Hall as [Hev _]. congruence.
Qed.

Section Recorder.

Context {W : Type} `{Env W}.

Implicit Types (st : State W) (id : string) (f : File).

(** *** Indexing the last element *)

Lemma length_last_lookup (l : list string) (x : string) :
  last l = Some x -> l !! Z.to_nat (Z.of_nat (length l) - 1) = Some x.
Proof.
  intros Hl. rewrite last_lookup in Hl.
  replace (Z.to_nat (Z.of_nat (length l) - 1)) with (Nat.pred (length l))
    by lia.
  exact Hl.
Qed.

Lemma index_last (l : list string) (x : string) st :
  last l = Some x ->
  index l (Z.of_nat (length l) - 1) st = mkRun (Returned x) st [].
Proof.
  intros Hl. unfold index.
  rewrite (length_last_lookup l x Hl).
  destruct l as [|a l']; [discriminate|].
  replace ((0 <=? Z.of_nat (length (a :: l')) - 1)%Z
           && (Z.of_nat (length (a :: l')) - 1 <? Z.of_nat (length (a :: l')))%Z)
    with true; [reflexivity|].
  symmetry. apply andb_true_iff. split.
  - apply Z.leb_le. simpl length. lia.
  - apply Z.ltb_lt. lia.
Qed.

Lemma index_nil st :
  index [] (Z.of_nat (length (@nil string)) - 1) st
  = mkRun (Aborted (IndexOutOfRange (-1) 0)) st [].
Proof. reflexivity. Qed.

(** *** The body decision *)

Lemma dumpBodyFor_absent (header : http.Header) st :
  header !! "Content-Type" = None ->
  dumpBodyFor header st = mkRun (Returned false) st [].
Proof. intros Hh. unfold dumpBodyFor. rewrite Hh. reflexivity. Qed.

Lemma dumpBodyFor_last (header : http.Header) (l : list string) x st :
  header !! "Content-Type" = Some l -> last l = Some x ->
  dumpBodyFor header st = mkRun (Returned (shouldDumpBody x)) st [].
Proof.
  intros Hh Hl. unfold dumpBodyFor, bind. rewrite Hh.
  rewrite (index_last l x st Hl). reflexivity.
Qed.

Lemma dumpBodyFor_empty (header : http.Header) st :
  header !! "Content-Type" = Some [] ->
  dumpBodyFor header st = mkRun (Aborted (IndexOutOfRange (-1) 0)) st [].
Proof.
  intros Hh. unfold dumpBodyFor, bind. rewrite Hh.
  rewrite index_nil. reflexivity.
Qed.

(** The decision reads the header only: no state change, no call. *)
Lemma dumpBodyFor_pure (header : http.Header) st :
  dumpBodyFor header st = mkRun (outcome (dumpBodyFor header st)) st [].
Proof.
  destruct (header !! "Content-Type") as [l|] eqn:Hh.
  - destruct (last l) as [x|] eqn:Hl.
    + rewrite (dumpBodyFor_last _ _ _ _ Hh Hl). reflexivity.
    + apply last_None in Hl. subst l.
      rewrite (dumpBodyFor_empty _ _ Hh). reflexivity.
  - rewrite (dumpBodyFor_absent _ _ Hh). reflexivity.
Qed.

(** *** The formatted texts *)

Lemma Sprintf_request_record id (dump : string) :
  fmt.Sprintf request_record_format [id; dump]
  = ("Request-ID: " ++ id ++ LF ++ dump ++ LF ++ separator ++ LF)%string.
Proof. reflexivity. Qed.

Lemma Sprintf_response_id id :
  fmt.Sprintf response_id_format [id] = ("Request-ID: " ++ id ++ LF)%string.
Proof. reflexivity. Qed.

Lemma Sprintf_response_record (dump : string) :
  fmt.Sprintf response_record_format [dump]
  = (dump ++ LF ++ separator ++ LF)%string.
Proof. reflexivity. Qed.

Lemma separator_is_25_equals :
  separator = string_of_list_ascii (repeat "="%char 25).
Proof. reflexivity. Qed.

(** *** [LogRequest], case by case *)

Local Arguments fmt.Sprintf : simpl never.

Lemma LogRequest_inactive id req st :
  requestLogFile st = None ->
  LogRequest id req st = mkRun (Returned None) st [].
Proof.
  intros Hf. unfold LogRequest, IsRequestLoggingActive, bind, gets.
  cbn. rewrite Hf. reflexivity.
Qed.

Lemma LogRequest_aborts id req st f why :
  requestLogFile st = Some f ->
  outcome (dumpBodyFor (http.Request.Header req) st) = Aborted why ->
  LogRequest id req st = mkRun (Aborted why) st [].
Proof.
  intros Hf Hd. unfold LogRequest, IsRequestLoggingActive, bind, gets.
  cbn. rewrite Hf. cbn.
  rewrite dumpBodyFor_pure, Hd. reflexivity.
Qed.

Lemma LogRequest_active id req st f b :
  requestLogFile st = Some f ->
  outcome (dumpBodyFor (http.Request.Header req) st) = Returned b ->
  LogRequest id req st =
    let (w1, d) := env_DumpRequestOut (world st) req b in
    let ev1 := EvDumpRequestOut req b d in
    match snd d with
    | Some e => mkRun (Returned (Some e)) (with_world st w1) [ev1]
    | None =>
        let text := fmt.Sprintf request_record_format [id; fst d] in
        let (w2, n) := env_WriteString w1 f text in
        let ev2 := EvWriteString f text n in
        match snd n with
        | Some e => mkRun (Returned (Some e)) (with_world st w2) [ev1; ev2]
        | None =>
            let (w3, err) := env_Sync w2 f in
            mkRun (Returned err) (with_world st w3) [ev1; ev2; EvSync f err]
        end
    end.
Proof.
  intros Hf Hd. unfold LogRequest, IsRequestLoggingActive, bind, gets.
  cbn. rewrite Hf. cbn.
  rewrite dumpBodyFor_pure, Hd.
  unfold httputil_DumpRequestOut, File_WriteString, File_Sync, extern, ret.
  cbn.
  destruct (env_DumpRequestOut (world st) req b) as [w1 [dump [e|]]];
    cbn; [reflexivity|].
  rewrite Hf; cbn.
  destruct (env_WriteString w1 f _) as [w2 [n [e|]]]; cbn; [reflexivity|].
  rewrite Hf; cbn.
  destruct (env_Sync w2 f) as [w3 err]; reflexivity.
Qed.

(** *** [LogResponse], case by case *)

Lemma LogResponse_inactive id resp st :
  responseLogFile st = None ->
  LogResponse id resp st = mkRun (Returned None) st [].
Proof.
  intros Hf. unfold LogResponse, IsResponseLoggingActive, bind, gets.
  cbn. rewrite Hf. reflexivity.
Qed.

Lemma LogResponse_aborts id resp st f why :
  responseLogFile st = Some f ->
  outcome (dumpBodyFor (http.Response.Header resp) st) = Aborted why ->
  LogResponse id resp st = mkRun (Aborted why) st [].
Proof.
  intros Hf Hd. unfold LogResponse, IsResponseLoggingActive, bind, gets.
  cbn. rewrite Hf. cbn.
  rewrite dumpBodyFor_pure, Hd. reflexivity.
Qed.

Lemma LogResponse_active id resp st f b :
  responseLogFile st = Some f ->
  outcome (dumpBodyFor (http.Response.Header resp) st) = Returned b ->
  LogResponse id resp st =
    let (w1, d) := env_DumpResponse (world st) resp b in
    let ev1 := EvDumpResponse resp b d in
    match snd d with
    | Some e => mkRun (Returned (Some e)) (with_world st w1) [ev1]
    | None =>
        let text := fmt.Sprintf response_record_format [fst d] in
        if String.eqb id EmptyString then
          let (w2, n) := env_WriteString w1 f text in
          let ev2 := EvWriteString f text n in
          match snd n with
          | Some e => mkRun (Returned (Some e)) (with_world st w2) [ev1; ev2]
          | None =>
              let (w3, err) := env_Sync w2 f in
              mkRun (Returned err) (with_world st w3)
                    [ev1; ev2; EvSync f err]
          end
        else
          let line := fmt.Sprintf response_id_format [id] in
          let (w2, n) := env_WriteString w1 f line in
          let ev2 := EvWriteString f line n in
          match snd n with
          | Some e => mkRun (Returned (Some e)) (with_world st w2) [ev1; ev2]
          | None =>
              let (w3, n') := env_WriteString w2 f text in
              let ev3 := EvWriteString f text n' in
              match snd n' with
              | Some e =>
                  mkRun (Returned (Some e)) (with_world st w3) [ev1; ev2; ev3]
              | None =>
                  let (w4, err) := env_Sync w3 f in
                  mkRun (Returned err) (with_world st w4)
                        [ev1; ev2; ev3; EvSync f err]
              end
          end
    end.
Proof.
  intros Hf Hd. unfold LogResponse, IsResponseLoggingActive, bind, gets.
  cbn. rewrite Hf. cbn.
  rewrite dumpBodyFor_pure, Hd.
  unfold httputil_DumpResponse, File_WriteString, File_Sync, extern, ret.
  cbn.
  destruct (env_DumpResponse (world st) resp b) as [w1 [dump [e|]]];
    cbn; [reflexivity|].
  destruct (String.eqb id EmptyString); cbn; rewrite ?Hf; cbn.
  - destruct (env_WriteString w1 f _) as [w2 [n [e|]]]; cbn; [reflexivity|].
    rewrite Hf; cbn.
    destruct (env_Sync w2 f) as [w3 err]; reflexivity.
  - destruct (env_WriteString w1 f _) as [w2 [n [e|]]]; cbn; [reflexivity|].
    rewrite Hf; cbn.
    destruct (env_WriteString w2 f _) as [w3 [n' [e|]]]; cbn; [reflexivity|].
    rewrite Hf; cbn.
    destruct (env_Sync w3 f) as [w4 err]; reflexivity.
Qed.

(** *** First call, and order of the calls *)

Lemma LogRequest_first_call id req st f b :
  requestLogFile st = Some f ->
  outcome (dumpBodyFor (http.Request.Header req) st) = Returned b ->
  head (events (LogRequest id req st))
  = Some (EvDumpRequestOut req b (snd (env_DumpRequestOut (world st) req b))).
Proof.
  intros Hf Hd. rewrite (LogRequest_active id req st f b Hf Hd).
  answers; reflexivity.
Qed.

Lemma LogResponse_first_call id resp st f b :
  responseLogFile st = Some f ->
  outcome (dumpBodyFor (http.Response.Header resp) st) = Returned b ->
  head (events (LogResponse id resp st))
  = Some (EvDumpResponse resp b (snd (env_DumpResponse (world st) resp b))).
Proof.
  intros Hf Hd. rewrite (LogResponse_active id resp st f b Hf Hd).
  answers; reflexivity.
Qed.

(** Only the world component of the state moves. *)
Lemma LogRequest_frame id req st :
  exists w, final (LogRequest id req st) = with_world st w.
Proof.
  destruct (requestLogFile st) as [f|] eqn:Hf.
  - destruct (outcome (dumpBodyFor (http.Request.Header req) st))
      as [b|why] eqn:Hd.
    + rewrite (LogRequest_active id req st f b Hf Hd).
      answers; eexists; reflexivity.
    + rewrite (LogRequest_aborts id req st f why Hf Hd).
      exists (world st). destruct st; reflexivity.
  - rewrite (LogRequest_inactive id req st Hf).
    exists (world st). destruct st; reflexivity.
Qed.

Lemma LogResponse_frame id resp st :
  exists w, final (LogResponse id resp st) = with_world st w.
Proof.
  destruct (responseLogFile st) as [f|] eqn:Hf.
  - destruct (outcome (dumpBodyFor (http.Response.Header resp) st))
      as [b|why] eqn:Hd.
    + rewrite (LogResponse_active id resp st f b Hf Hd).
      answers; eexists; reflexivity.
    + rewrite (LogResponse_aborts id resp st f why Hf Hd).
      exists (world st). destruct st; reflexivity.
  - rewrite (LogResponse_inactive id resp st Hf).
    exists (world st). destruct st; reflexivity.
Qed.

(** Every call but the last succeeded, and a failing last call is what
    the function returns. *)
Lemma LogRequest_orderly id req st :
  Forall (fun x => ev_error x = None)
         (removelast (events (LogRequest id req st)))
  /\ forall ev e,
       last (events (LogRequest id req st)) = Some ev ->
       ev_error ev = Some e ->
       outcome (LogRequest id req st) = Returned (Some e).
Proof.
  destruct (requestLogFile st) as [f|] eqn:Hf.
  - destruct (outcome (dumpBodyFor (http.Request.Header req) st))
      as [b|why] eqn:Hd.
    + rewrite (LogRequest_active id req st f b Hf Hd).
      answers; (split; [repeat constructor|]);
        intros ev e' [= <-] Herr; cbn in Herr; congruence.
    + rewrite (LogRequest_aborts id req st f why Hf Hd).
      split; [constructor|]. intros ev e' [=].
  - rewrite (LogRequest_inactive id req st Hf).
    split; [constructor|]. intros ev e' [=].
Qed.

Lemma LogResponse_orderly id resp st :
  Forall (fun x => ev_error x = None)
         (removelast (events (LogResponse id resp st)))
  /\ forall ev e,
       last (events (LogResponse id resp st)) = Some ev ->
       ev_error ev = Some e ->
       outcome (LogResponse id resp st) = Returned (Some e).
Proof.
  destruct (responseLogFile st) as [f|] eqn:Hf.
  - destruct (outcome (dumpBodyFor (http.Response.Header resp) st))
      as [b|why] eqn:Hd.
    + rewrite (LogResponse_active id resp st f b Hf Hd).
      answers; (split; [repeat constructor|]);
        intros ev e' [= <-] Herr; cbn in Herr; congruence.
    + rewrite (LogResponse_aborts id resp st f why Hf Hd).
      split; [constructor|]. intros ev e' [=].
  - rewrite (LogResponse_inactive id resp st Hf).
    split; [constructor|]. intros ev e' [=].
Qed.

(** *** Properties of the recorder *)

(** C2. On an active channel, a message whose header maps "Content-Type"
    to the empty list makes [LogRequest] and [LogResponse] index element
    -1 of a list of length 0: the call does not return, it ends with an
    index-out-of-range abort before any external call is made. *)
Theorem empty_content_type_list_aborts id st :
  (forall req f,
     requestLogFile st = Some f ->
     http.Request.Header req !! "Content-Type" = Some [] ->
     LogRequest id req st = mkRun (Aborted (IndexOutOfRange (-1) 0)) st [])
  /\ (forall resp f,
        responseLogFile st = Some f ->
        http.Response.Header resp !! "Content-Type" = Some [] ->
        LogResponse id resp st
        = mkRun (Aborted (IndexOutOfRange (-1) 0)) st []).
Proof.
  split; intros m f Hf Hh.
  - apply (LogRequest_aborts id m st f _ Hf).
    rewrite (dumpBodyFor_empty _ _ Hh). reflexivity.
  - apply (LogResponse_aborts id m st f _ Hf).
    rewrite (dumpBodyFor_empty _ _ Hh). reflexivity.
Qed.

(** C3. On an active channel the serializer is the first external call,
    and the body flag it is given is [shouldDumpBody] of the last value of
    the "Content-Type" list when the header is present, and false when the
    header is absent; the same for requests and for responses. *)
Theorem content_type_last_value_decides id st :
  (forall req f,
     requestLogFile st = Some f ->
     (forall l x,
        http.Request.Header req !! "Content-Type" = Some l ->
        last l = Some x ->
        head (events (LogRequest id req st))
        = Some (EvDumpRequestOut req (shouldDumpBody x)
                  (snd (env_DumpRequestOut (world st) req (shouldDumpBody x)))))
     /\ (http.Request.Header req !! "Content-Type" = None ->
         head (events (LogRequest id req st))
         = Some (EvDumpRequestOut req false
                   (snd (env_DumpRequestOut (world st) req false)))))
  /\ (forall resp f,
        responseLogFile st = Some f ->
        (forall l x,
           http.Response.Header resp !! "Content-Type" = Some l ->
           last l = Some x ->
           head (events (LogResponse id resp st))
           = Some (EvDumpResponse resp (shouldDumpBody x)
                     (snd (env_DumpResponse (world st) resp (shouldDumpBody x)))))
        /\ (http.Response.Header resp !! "Content-Type" = None ->
            head (events (LogResponse id resp st))
            = Some (EvDumpResponse resp false
                      (snd (env_DumpResponse (world st) resp false))))).
Proof.
  split; intros m f Hf; split.
  - intros l x Hh Hl. apply (LogRequest_first_call id m st f _ Hf).
    rewrite (dumpBodyFor_last _ _ _ _ Hh Hl). reflexivity.
  - intros Hh. apply (LogRequest_first_call id m st f _ Hf).
    rewrite (dumpBodyFor_absent _ _ Hh). reflexivity.
  - intros l x Hh Hl. apply (LogResponse_first_call id m st f _ Hf).
    rewrite (dumpBodyFor_last _ _ _ _ Hh Hl). reflexivity.
  - intros Hh. apply (LogResponse_first_call id m st f _ Hf).
    rewrite (dumpBodyFor_absent _ _ Hh). reflexivity.
Qed.

(** C4. Once the message is serialized to [dump], [LogRequest] hands the
    file one text that starts with the line "Request-ID: <id>" whatever
    [id] is, the empty string included.  [LogResponse] with an empty [id]
    hands the file the dump and the separator only; with a non-empty [id]
    its first write is the line "Request-ID: <id>", followed (if that
    write succeeds) by the dump and the separator. *)
Theorem request_id_line_asymmetry id st :
  (forall req f b dump,
     requestLogFile st = Some f ->
     In (EvDumpRequestOut req b (dump, None)) (events (LogRequest id req st)) ->
     writes_to f (events (LogRequest id req st))
     = [("Request-ID: " ++ id ++ LF ++ dump ++ LF ++ separator ++ LF)%string])
  /\ (forall resp f b dump,
        responseLogFile st = Some f ->
        In (EvDumpResponse resp b (dump, None))
           (events (LogResponse id resp st)) ->
        (id = EmptyString ->
         writes_to f (events (LogResponse id resp st))
         = [(dump ++ LF ++ separator ++ LF)%string])
        /\ (id <> EmptyString ->
            exists rest,
              writes_to f (events (LogResponse id resp st))
              = ("Request-ID: " ++ id ++ LF)%string :: rest
              /\ (rest = []
                  \/ rest = [(dump ++ LF ++ separator ++ LF)%string]))).
Proof.
  split.
  - intros req f b dump Hf.
    destruct (outcome (dumpBodyFor (http.Request.Header req) st))
      as [b'|why] eqn:Hd.
    + rewrite (LogRequest_active id req st f b' Hf Hd).
      destruct f as [fd]; answers; rewrite ?Nat.eqb_refl;
        intros Hin; repeat destruct Hin as [Hin|Hin]; try discriminate Hin;
        try contradiction; injection Hin as <- <-; reflexivity.
    + rewrite (LogRequest_aborts id req st f why Hf Hd). intros [].
  - intros resp f b dump Hf.
    destruct (outcome (dumpBodyFor (http.Response.Header resp) st))
      as [b'|why] eqn:Hd.
    + rewrite (LogResponse_active id resp st f b' Hf Hd).
      destruct f as [fd]; answers; rewrite ?Nat.eqb_refl;
        intros Hin; repeat destruct Hin as [Hin|Hin]; try discriminate Hin;
        try contradiction; injection Hin as <- <-;
        (split; intros Hne;
         [ try reflexivity; subst id; discriminate Hid
         | try (eexists; split; [reflexivity|]; auto; fail);
           apply String.eqb_eq in Hid; contradiction ]).
    + rewrite (LogResponse_aborts id resp st f why Hf Hd). intros [].
Qed.

(** C5. When [LogRequest] succeeds on an active channel, its external
    calls are exactly: the serializer, answering some [dump]; one
    [WriteString] on the request file of the text "Request-ID: <id>",
    newline, [dump], newline, 25 '=' characters, newline; one [Sync] of
    that file. *)
Theorem request_record_text id req st f :
  requestLogFile st = Some f ->
  outcome (LogRequest id req st) = Returned None ->
  exists b dump n,
    events (LogRequest id req st)
    = [EvDumpRequestOut req b (dump, None);
       EvWriteString f
         ("Request-ID: " ++ id ++ LF ++ dump ++ LF
          ++ string_of_list_ascii (repeat "="%char 25) ++ LF)%string
         (n, None);
       EvSync f None].
Proof.
  intros Hf.
  destruct (outcome (dumpBodyFor (http.Request.Header req) st))
    as [b|why] eqn:Hd.
  - rewrite (LogRequest_active id req st f b Hf Hd).
    answers; intros [=]. eexists _, _, _. reflexivity.
  - rewrite (LogRequest_aborts id req st f why Hf Hd). intros [=].
Qed.

(** C6. On an inactive channel [LogRequest] (resp. [LogResponse]) returns
    nil, makes no external call and leaves the whole state, the world
    included, as it was. *)
Theorem inactive_channel_is_a_no_op id st :
  (forall req, requestLogFile st = None ->
     LogRequest id req st = mkRun (Returned None) st [])
  /\ (forall resp, responseLogFile st = None ->
        LogResponse id resp st = mkRun (Returned None) st []).
Proof.
  split; intros m Hf.
  - apply LogRequest_inactive, Hf.
  - apply LogResponse_inactive, Hf.
Qed.

(** C9. In a run of [LogRequest] or [LogResponse], an external call that
    answers an error is the last call of the run and its error is what the
    function returns; and on an active channel the function returns nil
    only after the serializer succeeded, a write succeeded, every call
    succeeded and the last call was a successful [Sync]. *)
Theorem failure_ends_the_record id st :
  (forall req,
     (forall pre ev post e,
        events (LogRequest id req st) = pre ++ ev :: post ->
        ev_error ev = Some e ->
        post = [] /\ outcome (LogRequest id req st) = Returned (Some e))
     /\ (forall f,
           requestLogFile st = Some f ->
           outcome (LogRequest id req st) = Returned None ->
           (exists b dump,
               In (EvDumpRequestOut req b (dump, None))
                  (events (LogRequest id req st)))
           /\ (exists s n,
                  In (EvWriteString f s (n, None))
                     (events (LogRequest id req st)))
           /\ last (events (LogRequest id req st)) = Some (EvSync f None)
           /\ Forall (fun ev => ev_error ev = None)
                     (events (LogRequest id req st))))
  /\ (forall resp,
        (forall pre ev post e,
           events (LogResponse id resp st) = pre ++ ev :: post ->
           ev_error ev = Some e ->
           post = [] /\ outcome (LogResponse id resp st) = Returned (Some e))
        /\ (forall f,
              responseLogFile st = Some f ->
              outcome (LogResponse id resp st) = Returned None ->
              (exists b dump,
                  In (EvDumpResponse resp b (dump, None))
                     (events (LogResponse id resp st)))
              /\ (exists s n,
                     In (EvWriteString f s (n, None))
                        (events (LogResponse id resp st)))
              /\ last (events (LogResponse id resp st)) = Some (EvSync f None)
              /\ Forall (fun ev => ev_error ev = None)
                        (events (LogResponse id resp st)))).
Proof.
  split; intros m; split.
  - intros pre ev post e Hsplit Herr.
    destruct (LogRequest_orderly id m st) as [Hclean Hlast].
    destruct (stops_at_error _ _ _ _ _ Hsplit Herr Hclean) as [-> Hev].
    split; [reflexivity|]. exact (Hlast ev e Hev Herr).
  - intros f Hf.
    destruct (outcome (dumpBodyFor (http.Request.Header m) st))
      as [b|why] eqn:Hd.
    + rewrite (LogRequest_active id m st f b Hf Hd).
      answers; intros [=]; repeat split;
        eauto 6 using in_eq, in_cons; repeat constructor.
    + rewrite (LogRequest_aborts id m st f why Hf Hd). intros [=].
  - intros pre ev post e Hsplit Herr.
    destruct (LogResponse_orderly id m st) as [Hclean Hlast].
    destruct (stops_at_error _ _ _ _ _ Hsplit Herr Hclean) as [-> Hev].
    split; [reflexivity|]. exact (Hlast ev e Hev Herr).
  - intros f Hf.
    destruct (outcome (dumpBodyFor (http.Response.Header m) st))
      as [b|why] eqn:Hd.
    + rewrite (LogResponse_active id m st f b Hf Hd).
      answers; intros [=]; repeat split;
        eauto 6 using in_eq, in_cons; repeat constructor.
    + rewrite (LogResponse_aborts id m st f why Hf Hd). intros [=].
Qed.

(** C10. Whatever its outcome, a call of [LogRequest] or [LogResponse]
    leaves [requestLogFile] and [responseLogFile] as they were, and so the
    answers of [IsRequestLoggingActive] and [IsResponseLoggingActive]. *)
Theorem recording_keeps_the_handles id st :
  (forall req,
     requestLogFile (final (LogRequest id req st)) = requestLogFile st
     /\ responseLogFile (final (LogRequest id req st)) = responseLogFile st
     /\ outcome (IsRequestLoggingActive (final (LogRequest id req st)))
        = outcome (IsRequestLoggingActive st)
     /\ outcome (IsResponseLoggingActive (final (LogRequest id req st)))
        = outcome (IsResponseLoggingActive st))
  /\ (forall resp,
        requestLogFile (final (LogResponse id resp st)) = requestLogFile st
        /\ responseLogFile (final (LogResponse id resp st)) = responseLogFile st
        /\ outcome (IsRequestLoggingActive (final (LogResponse id resp st)))
           = outcome (IsRequestLoggingActive st)
        /\ outcome (IsResponseLoggingActive (final (LogResponse id resp st)))
           = outcome (IsResponseLoggingActive st)).
Proof.
  split; intros m.
  - destruct (LogRequest_frame id m st) as [w ->]. repeat split; reflexivity.
  - destruct (LogResponse_frame id m st) as [w ->]. repeat split; reflexivity.
Qed.

End Recorder.

(* ===================================================================== *)
(** ** ActivationGate *)
(* ===================================================================== *)

Section Activation.

Context {W : Type} `{Env W}.

Implicit Types (st : State W) (fs : Fs).

(** *** The two channel initializers, case by case *)

Lemma setupRequestLog_unset fs st l :
  Log st = Some l ->
  env_LookupEnv (world st) "MONACO_REQUEST_LOG" = None ->
  setupRequestLog fs st
  = let call := LoggerDebug (Log st) ["request log not activated"] in
    mkRun (Returned None) (with_world st (env_Logger (world st) call))
          [EvLookupEnv "MONACO_REQUEST_LOG" None; EvLogger call].
Proof.
  intros Hl Hv. unfold setupRequestLog, os_LookupEnv, Log_Debug, Log_method,
    logger, bind, gets, ret, extern.
  cbn. rewrite Hv. cbn. rewrite Hl. reflexivity.
Qed.

Lemma setupResponseLog_unset fs st l :
  Log st = Some l ->
  env_LookupEnv (world st) "MONACO_RESPONSE_LOG" = None ->
  setupResponseLog fs st
  = let call := LoggerDebug (Log st) ["response log not activated"] in
    mkRun (Returned None) (with_world st (env_Logger (world st) call))
          [EvLookupEnv "MONACO_RESPONSE_LOG" None; EvLogger call].
Proof.
  intros Hl Hv. unfold setupResponseLog, os_LookupEnv, Log_Debug, Log_method,
    logger, bind, gets, ret, extern.
  cbn. rewrite Hv. cbn. rewrite Hl. reflexivity.
Qed.

Lemma setupRequestLog_set fs st l path :
  Log st = Some l ->
  env_LookupEnv (world st) "MONACO_REQUEST_LOG" = Some path ->
  setupRequestLog fs st
  = let ev1 := EvLookupEnv "MONACO_REQUEST_LOG" (Some path) in
    let a := env_Abs (world st) path in
    let ev2 := EvAbs path a in
    match snd a with
    | Some e => mkRun (Returned (Some e)) (with_world st (world st)) [ev1; ev2]
    | None =>
        let call :=
          LoggerDebug (Log st) ["request log activated at %s"; fst a] in
        let ev3 := EvLogger call in
        let (w2, r) :=
          env_OpenFile (env_Logger (world st) call) fs (fst a)
                       dump_file_flags perm_0644 in
        let ev4 := EvOpenFile fs (fst a) dump_file_flags perm_0644 r in
        match snd r with
        | Some e =>
            mkRun (Returned (Some e)) (with_world st w2) [ev1; ev2; ev3; ev4]
        | None =>
            mkRun (Returned None)
                  (mkState (Log st) (fst r) (responseLogFile st) w2)
                  [ev1; ev2; ev3; ev4]
        end
    end.
Proof.
  intros Hl Hv. unfold setupRequestLog, prepareLogFile, os_LookupEnv,
    filepath_Abs, fs_OpenFile, Log_Debug, Log_method, logger,
    set_requestLogFile, bind, gets, ret, extern.
  cbn. rewrite Hv. cbn.
  destruct (env_Abs (world st) path) as [p [e|]]; cbn; [reflexivity|].
  rewrite Hl. cbn.
  destruct (env_OpenFile _ fs p _ _) as [w2 [h [e|]]]; cbn;
    rewrite ?Hl; reflexivity.
Qed.

Lemma setupResponseLog_set fs st l path :
  Log st = Some l ->
  env_LookupEnv (world st) "MONACO_RESPONSE_LOG" = Some path ->
  setupResponseLog fs st
  = let ev1 := EvLookupEnv "MONACO_RESPONSE_LOG" (Some path) in
    let a := env_Abs (world st) path in
    let ev2 := EvAbs path a in
    match snd a with
    | Some e => mkRun (Returned (Some e)) (with_world st (world st)) [ev1; ev2]
    | None =>
        let call :=
          LoggerDebug (Log st) ["response log activated at %s"; fst a] in
        let ev3 := EvLogger call in
        let (w2, r) :=
          env_OpenFile (env_Logger (world st) call) fs (fst a)
                       dump_file_flags perm_0644 in
        let ev4 := EvOpenFile fs (fst a) dump_file_flags perm_0644 r in
        match snd r with
        | Some e =>
            mkRun (Returned (Some e)) (with_world st w2) [ev1; ev2; ev3; ev4]
        | None =>
            mkRun (Returned None)
                  (mkState (Log st) (requestLogFile st) (fst r) w2)
                  [ev1; ev2; ev3; ev4]
        end
    end.
Proof.
  intros Hl Hv. unfold setupResponseLog, prepareLogFile, os_LookupEnv,
    filepath_Abs, fs_OpenFile, Log_Debug, Log_method, logger,
    set_responseLogFile, bind, gets, ret, extern.
  cbn. rewrite Hv. cbn.
  destruct (env_Abs (world st) path) as [p [e|]]; cbn; [reflexivity|].
  rewrite Hl. cbn.
  destruct (env_OpenFile _ fs p _ _) as [w2 [h [e|]]]; cbn;
    rewrite ?Hl; reflexivity.
Qed.

(** *** Failures of channel initialization are returned *)

Lemma setupRequestLog_surfaces fs st e : surfaces e (setupRequestLog fs st).
Proof.
  unfold surfaces. destruct (Log st) as [l|] eqn:Hl.
  - destruct (env_LookupEnv (world st) "MONACO_REQUEST_LOG") as [path|] eqn:Hv.
    + rewrite (setupRequestLog_set fs st l path Hl Hv). cbn zeta.
      destruct (env_Abs (world st) path) as [p [e1|]]; cbn.
      * intros ev [<-|[<-|[]]] Hc; cbn in Hc; [contradiction|congruence].
      * destruct (env_OpenFile _ fs p _ _) as [w2 [h [e1|]]]; cbn;
          intros ev [<-|[<-|[<-|[<-|[]]]]] Hc; cbn in Hc;
          try contradiction; try discriminate Hc;
          destruct Hc as [_ Hc]; congruence.
    + rewrite (setupRequestLog_unset fs st l Hl Hv).
      intros ev [<-|[<-|[]]] Hc; cbn in Hc; contradiction.
  - unfold setupRequestLog, prepareLogFile, os_LookupEnv, filepath_Abs,
      Log_Debug, Log_method, bind, gets, ret, abort, extern.
    cbn.
    destruct (env_LookupEnv (world st) "MONACO_REQUEST_LOG") as [path|]; cbn;
      [destruct (env_Abs (world st) path) as [p [e1|]]; cbn|];
      rewrite ?Hl; cbn;
      intros ev Hin Hc;
      repeat (destruct Hin as [Hin|Hin]; [subst ev; cbn in Hc|]);
      try contradiction; congruence.
Qed.

Lemma setupResponseLog_surfaces fs st e : surfaces e (setupResponseLog fs st).
Proof.
  unfold surfaces. destruct (Log st) as [l|] eqn:Hl.
  - destruct (env_LookupEnv (world st) "MONACO_RESPONSE_LOG") as [path|] eqn:Hv.
    + rewrite (setupResponseLog_set fs st l path Hl Hv). cbn zeta.
      destruct (env_Abs (world st) path) as [p [e1|]]; cbn.
      * intros ev [<-|[<-|[]]] Hc; cbn in Hc; [contradiction|congruence].
      * destruct (env_OpenFile _ fs p _ _) as [w2 [h [e1|]]]; cbn;
          intros ev [<-|[<-|[<-|[<-|[]]]]] Hc; cbn in Hc;
          try contradiction; try discriminate Hc;
          destruct Hc as [_ Hc]; congruence.
    + rewrite (setupResponseLog_unset fs st l Hl Hv).
      intros ev [<-|[<-|[]]] Hc; cbn in Hc; contradiction.
  - unfold setupResponseLog, prepareLogFile, os_LookupEnv, filepath_Abs,
      Log_Debug, Log_method, bind, gets, ret, abort, extern.
    cbn.
    destruct (env_LookupEnv (world st) "MONACO_RESPONSE_LOG") as [path|]; cbn;
      [destruct (env_Abs (world st) path) as [p [e1|]]; cbn|];
      rewrite ?Hl; cbn;
      intros ev Hin Hc;
      repeat (destruct Hin as [Hin|Hin]; [subst ev; cbn in Hc|]);
      try contradiction; congruence.
Qed.

(** A step that makes no channel call passes the property on. *)
Lemma surfaces_bind_quiet {A} (m : M W A) (k : A -> M W (option error)) st e :
  (forall ev, In ev (events (m st)) -> ~ channel_failure e ev) ->
  (forall a, outcome (m st) = Returned a -> surfaces e (k a (final (m st)))) ->
  surfaces e (bind m k st).
Proof.
  intros Hq Hk ev. unfold bind. cbn zeta.
  destruct (outcome (m st)) as [a|why] eqn:Ho; cbn.
  - intros Hin Hc. apply in_app_or in Hin as [Hin|Hin].
    + destruct (Hq ev Hin Hc).
    + exact (Hk a eq_refl ev Hin Hc).
  - intros Hin Hc. destruct (Hq ev Hin Hc).
Qed.

(** A channel initializer followed by [if err != nil { return err }]. *)
Lemma surfaces_bind_channel (m : M W (option error))
      (k : option error -> M W (option error)) st e :
  surfaces e (m st) ->
  (forall e', k (Some e') = ret (Some e')) ->
  (outcome (m st) = Returned None -> surfaces e (k None (final (m st)))) ->
  surfaces e (bind m k st).
Proof.
  intros Hm Hsome Hnone ev. unfold bind. cbn zeta.
  destruct (outcome (m st)) as [[e'|]|why] eqn:Ho; cbn.
  - rewrite Hsome. cbn. rewrite app_nil_r. intros Hin Hc.
    rewrite <- Ho. exact (Hm ev Hin Hc).
  - intros Hin Hc. apply in_app_or in Hin as [Hin|Hin].
    + specialize (Hm ev Hin Hc). congruence.
    + exact (Hnone eq_refl ev Hin Hc).
  - intros Hin Hc. specialize (Hm ev Hin Hc). congruence.
Qed.

Lemma surfaces_ret (o : option error) st e : surfaces e (ret o st).
Proof. intros ev []. Qed.

(** The steps of [SetupLogging] before the channels make no channel
    call: the only file they open is the main log, in append mode. *)
Ltac quiet :=
  intros ev;
  unfold log_New, set_Log, Log_SetLevel, Log_SetOutput_MultiWriter_Stderr,
    Log_Info, Log_Debug, Log_method, logger, fs_Stat, fs_Mkdir, FailOnError,
    time_Now_Format, fs_OpenFile, bind, gets, ret, abort, extern;
  cbn;
  repeat match goal with
    | |- context [let (_, _) := ?c in _] => destruct c as [? ?]; cbn
    | |- context [match ?c with Some _ => _ | None => _ end] =>
        destruct c; cbn
    | |- context [if ?c then _ else _] => destruct c; cbn
    end;
  intros Hin Hc;
  repeat (destruct Hin as [Hin|Hin]; [subst ev; cbn in Hc|]);
  try contradiction;
  try (destruct Hc as [Hc _]; discriminate Hc).

Lemma SetupLogging_surfaces fs verbose st e :
  surfaces e (SetupLogging fs verbose st).
Proof.
  unfold SetupLogging.
  apply surfaces_bind_quiet; [quiet|intros l _].
  apply surfaces_bind_quiet; [quiet|intros _ _].
  apply surfaces_bind_quiet; [quiet|intros _ _].
  apply surfaces_bind_quiet; [quiet|intros _ _].
  apply surfaces_bind_quiet; [quiet|intros _ _].
  apply surfaces_bind_quiet; [quiet|intros err0 _].
  apply surfaces_bind_quiet; [quiet|intros _ _].
  apply surfaces_bind_quiet; [quiet|intros stamp _].
  apply surfaces_bind_quiet; [quiet|intros [file [e0|]] _].
  - apply surfaces_bind_quiet; [quiet|intros _ _]. apply surfaces_ret.
  - apply surfaces_bind_quiet; [quiet|intros _ _].
    apply surfaces_bind_channel;
      [apply setupRequestLog_surfaces|reflexivity|intros _].
    apply surfaces_bind_channel;
      [apply setupResponseLog_surfaces|reflexivity|intros _].
    apply surfaces_ret.
Qed.


(** *** The start of [SetupLogging] *)

Lemma last_app_nonempty {A} (l1 l2 : list A) (x : A) :
  last l2 = Some x -> last (l1 ++ l2) = Some x.
Proof.
  intros Hl. destruct l2 as [|y l2]; [discriminate|].
  rewrite last_app_cons. exact Hl.
Qed.

Lemma startup_then_bind {A} tail fs (m : M W A) (k : A -> M W (option error)) st :
  forallb is_startup_event (events (m st)) = true ->
  List.filter is_open (events (m st)) = [] ->
  Log (final (m st)) = Log st ->
  requestLogFile (final (m st)) = requestLogFile st ->
  responseLogFile (final (m st)) = responseLogFile st ->
  (forall a, outcome (m st) = Returned a ->
             startup_then tail fs (final (m st)) (k a (final (m st)))) ->
  (forall why, outcome (m st) = Aborted why ->
               why = ProcessTerminated
               /\ exists err msg,
                    last (events (m st)) = Some (EvFailOnError err msg false)) ->
  startup_then tail fs st (bind m k st).
Proof.
  intros Hev Hopen Hlog Hreq Hresp Hk Hab. unfold bind. cbn zeta.
  destruct (outcome (m st)) as [a|why] eqn:Ho.
  - destruct (Hk a eq_refl) as (pre & st1 & Hpre & Hl1 & Hq1 & Hp1 & Hcases).
    exists (events (m st) ++ pre), st1.
    rewrite forallb_app, Hev, Hpre, List.filter_app, Hopen.
    repeat split; try congruence.
    destruct Hcases as [(name & h & Hf & ->)|[(name & h & e & Hf & ->)
                       |(err & msg & Hf & Hlast & ->)]]; cbn.
    + left. exists name, h. split; [exact Hf|]. rewrite app_assoc. reflexivity.
    + right; left. exists name, h, e. split; [exact Hf|reflexivity].
    + right; right. exists err, msg. split; [exact Hf|].
      split; [apply last_app_nonempty; exact Hlast|reflexivity].
  - destruct (Hab why eq_refl) as (-> & err & msg & Hlast).
    exists (events (m st)), (final (m st)).
    repeat split; try assumption.
    right; right. exists err, msg. repeat split; assumption.
Qed.

Lemma bind_extern_eq {A B} (call : W -> W * A) (ev : A -> Event)
      (k : A -> M W B) st :
  bind (extern call ev) k st
  = let a := snd (call (world st)) in
    let r := k a (with_world st (fst (call (world st)))) in
    mkRun (outcome r) (final r) (ev a :: events r).
Proof. unfold bind, extern. destruct (call (world st)); reflexivity. Qed.

Lemma bind_set_Log_eq {B} (l : option Logger) (k : unit -> M W B) st :
  bind (set_Log l) k st
  = k tt (mkState l (requestLogFile st) (responseLogFile st) (world st)).
Proof. unfold bind, set_Log. cbn. destruct (k tt _); reflexivity. Qed.

Ltac startup_side :=
  unfold Log_SetLevel, Log_SetOutput_MultiWriter_Stderr,
    Log_Info, Log_method, logger, fs_Stat, fs_Mkdir, FailOnError,
    time_Now_Format, bind, gets, ret, abort, extern;
  cbn;
  repeat match goal with
    | Hl : Log ?s = Some _ |- context [Log ?s] => rewrite Hl; cbn
    | |- context [let (_, _) := ?c in _] => destruct c as [? ?]; cbn
    | |- context [match ?c with Some _ => _ | None => _ end] =>
        destruct c; cbn
    | |- context [if ?c then _ else _] => destruct c; cbn
    end;
  first [ reflexivity
        | let Hw := fresh in
          intros ? Hw;
          first [ discriminate Hw
                | injection Hw as <-; split; [reflexivity|];
                  eexists _, _; reflexivity ] ].

(** One step of the start: its side conditions, then the continuation
    from a state in which [Log] still holds the logger [l]. *)
Ltac startup_step l :=
  apply startup_then_bind;
  [ startup_side | startup_side | startup_side | startup_side | startup_side
  | intros ? _;
    match goal with
    | |- startup_then _ _ ?s _ =>
        let Hn := fresh "Hlog" in
        assert (Hn : Log s = Some l) by startup_side;
        revert Hn; generalize s; intros ? Hn
    end
  | startup_side ].

Lemma SetupLogging_after_New fs verbose st :
  exists l r0,
    SetupLogging fs verbose st
    = mkRun (outcome r0) (final r0) (EvLogNew l :: events r0)
    /\ startup_then (setupChannels fs) fs
         (mkState (Some l) (requestLogFile st) (responseLogFile st)
                  (fst (env_log_New (world st))))
         r0.
Proof.
  unfold SetupLogging.
  change (let* err := setupRequestLog fs
          in match err with
             | Some _ => ret err
             | None =>
                 let* err0 := setupResponseLog fs
                 in match err0 with
                    | Some _ => ret err0
                    | None => ret None
                    end
             end) with (setupChannels fs).
  generalize (setupChannels fs) as tail. intros tail.
  unfold log_New. rewrite bind_extern_eq. cbn zeta.
  eexists _, _. split; [reflexivity|].
  rewrite bind_set_Log_eq. unfold with_world.
  cbn [Log requestLogFile responseLogFile world].
  set (l := snd (env_log_New (world st))).
  startup_step l. startup_step l. startup_step l. startup_step l.
  startup_step l. startup_step l.
  unfold bind, fs_OpenFile, Log_Info, Log_SetOutput_MultiWriter_Stderr,
    Log_method, logger, gets, ret, abort, extern.
  cbn.
  match goal with
  | |- context [env_OpenFile ?w ?f ?n ?fl ?p] =>
      destruct (env_OpenFile w f n fl p) as [w1 [file [e|]]]
  end; cbn;
    match goal with
    | Hl : Log ?s = Some _ |- context [Log ?s] => rewrite Hl; cbn
    end.
  - eexists _, _. refine (conj _ (conj _ (conj _ (conj _ _)))).
    5: right; left; eexists _, _, _; split; [|reflexivity]; reflexivity.
    all: first [reflexivity | assumption | symmetry; assumption].
  - eexists [_; _], _. refine (conj _ (conj _ (conj _ (conj _ _)))).
    5: left; eexists _, _; split; [|reflexivity]; reflexivity.
    all: first [reflexivity | assumption | symmetry; assumption].
Qed.

(** *** What the channel initializers do to the state *)

Ltac in_cases Hin :=
  repeat destruct Hin as [Hin|Hin];
  try discriminate Hin; try contradiction.

Lemma setupRequestLog_summary fs st l :
  Log st = Some l ->
  (exists o, outcome (setupRequestLog fs st) = Returned o)
  /\ forallb is_channel_event (events (setupRequestLog fs st)) = true
  /\ Log (final (setupRequestLog fs st)) = Log st
  /\ responseLogFile (final (setupRequestLog fs st)) = responseLogFile st
  /\ (outcome (setupRequestLog fs st) <> Returned None ->
      requestLogFile (final (setupRequestLog fs st)) = requestLogFile st)
  /\ (forall k v, In (EvLookupEnv k v) (events (setupRequestLog fs st)) ->
                  k = "MONACO_REQUEST_LOG")
  /\ (exists v, In (EvLookupEnv "MONACO_REQUEST_LOG" v)
                   (events (setupRequestLog fs st)))
  /\ (In (EvLookupEnv "MONACO_REQUEST_LOG" None)
         (events (setupRequestLog fs st)) ->
      requestLogFile (final (setupRequestLog fs st)) = requestLogFile st).
Proof.
  intros Hl.
  destruct (env_LookupEnv (world st) "MONACO_REQUEST_LOG") as [path|] eqn:Hv.
  - rewrite (setupRequestLog_set fs st l path Hl Hv). cbn zeta.
    destruct (env_Abs (world st) path) as [p [e1|]]; cbn;
      [|destruct (env_OpenFile _ fs p _ _) as [w2 [h [e1|]]]; cbn].
    all: repeat split; eauto using in_eq;
      try (intros Hne; destruct (Hne eq_refl); fail);
      try (intros k v Hin; in_cases Hin; congruence);
      try (intros Hin; in_cases Hin; fail).
  - rewrite (setupRequestLog_unset fs st l Hl Hv). cbn.
    all: repeat split; eauto using in_eq;
      try (intros Hne; destruct (Hne eq_refl); fail);
      try (intros k v Hin; in_cases Hin; congruence);
      try (intros Hin; in_cases Hin; fail).
Qed.

Lemma setupResponseLog_summary fs st l :
  Log st = Some l ->
  (exists o, outcome (setupResponseLog fs st) = Returned o)
  /\ forallb is_channel_event (events (setupResponseLog fs st)) = true
  /\ Log (final (setupResponseLog fs st)) = Log st
  /\ requestLogFile (final (setupResponseLog fs st)) = requestLogFile st
  /\ (outcome (setupResponseLog fs st) <> Returned None ->
      responseLogFile (final (setupResponseLog fs st)) = responseLogFile st)
  /\ (forall k v, In (EvLookupEnv k v) (events (setupResponseLog fs st)) ->
                  k = "MONACO_RESPONSE_LOG")
  /\ (exists v, In (EvLookupEnv "MONACO_RESPONSE_LOG" v)
                   (events (setupResponseLog fs st)))
  /\ (In (EvLookupEnv "MONACO_RESPONSE_LOG" None)
         (events (setupResponseLog fs st)) ->
      responseLogFile (final (setupResponseLog fs st)) = responseLogFile st).
Proof.
  intros Hl.
  destruct (env_LookupEnv (world st) "MONACO_RESPONSE_LOG") as [path|] eqn:Hv.
  - rewrite (setupResponseLog_set fs st l path Hl Hv). cbn zeta.
    destruct (env_Abs (world st) path) as [p [e1|]]; cbn;
      [|destruct (env_OpenFile _ fs p _ _) as [w2 [h [e1|]]]; cbn].
    all: repeat split; eauto using in_eq;
      try (intros Hne; destruct (Hne eq_refl); fail);
      try (intros k v Hin; in_cases Hin; congruence);
      try (intros Hin; in_cases Hin; fail).
  - rewrite (setupResponseLog_unset fs st l Hl Hv). cbn.
    all: repeat split; eauto using in_eq;
      try (intros Hne; destruct (Hne eq_refl); fail);
      try (intros k v Hin; in_cases Hin; congruence);
      try (intros Hin; in_cases Hin; fail).
Qed.

Lemma setupChannels_summary fs st l :
  Log st = Some l ->
  (exists o, outcome (setupChannels fs st) = Returned o)
  /\ forallb is_channel_event (events (setupChannels fs st)) = true
  /\ Log (final (setupChannels fs st)) = Log st
  /\ (outcome (setupChannels fs st) <> Returned None ->
      responseLogFile (final (setupChannels fs st)) = responseLogFile st)
  /\ (In (EvLookupEnv "MONACO_REQUEST_LOG" None) (events (setupChannels fs st)) ->
      requestLogFile (final (setupChannels fs st)) = requestLogFile st)
  /\ (In (EvLookupEnv "MONACO_RESPONSE_LOG" None) (events (setupChannels fs st)) ->
      responseLogFile (final (setupChannels fs st)) = responseLogFile st)
  /\ (outcome (setupChannels fs st) = Returned None ->
      (exists v, In (EvLookupEnv "MONACO_REQUEST_LOG" v)
                    (events (setupChannels fs st)))
      /\ (exists v, In (EvLookupEnv "MONACO_RESPONSE_LOG" v)
                       (events (setupChannels fs st)))).
Proof.
  intros Hl.
  destruct (setupRequestLog_summary fs st l Hl)
    as ([o1 Ho1] & Hev1 & Hlog1 & Hresp1 & Hfail1 & Hkey1 & Hlook1 & Hunset1).
  unfold setupChannels, bind, ret. cbv beta iota zeta. rewrite Ho1.
  destruct o1 as [e1|]; cbv beta iota zeta; cbn [outcome final events].
  - rewrite app_nil_r. split_and!.
    + eauto.
    + exact Hev1.
    + exact Hlog1.
    + intros _. exact Hresp1.
    + exact Hunset1.
    + intros Hin. apply Hkey1 in Hin. discriminate Hin.
    + discriminate.
  - set (st1 := final (setupRequestLog fs st)) in *.
    destruct (setupResponseLog_summary fs st1 l ltac:(congruence))
      as ([o2 Ho2] & Hev2 & Hlog2 & Hreq2 & Hfail2 & Hkey2 & Hlook2 & Hunset2).
    rewrite Ho2. cbv beta iota zeta.
    assert (Hrun : forall st',
               (match o2 with
                | Some _ => fun st0 : State W => mkRun (Returned o2) st0 []
                | None => fun st0 : State W => mkRun (Returned None) st0 []
                end) st' = mkRun (Returned o2) st' [])
      by (destruct o2; reflexivity).
    rewrite Hrun. cbn [outcome final events]. rewrite app_nil_r.
    split_and!.
    + eauto.
    + rewrite forallb_app, Hev1, Hev2. reflexivity.
    + congruence.
    + intros Hne. rewrite Hfail2 by congruence. exact Hresp1.
    + intros Hin. apply in_app_or in Hin as [Hin|Hin].
      * rewrite Hreq2. exact (Hunset1 Hin).
      * apply Hkey2 in Hin. discriminate Hin.
    + intros Hin. apply in_app_or in Hin as [Hin|Hin].
      * apply Hkey1 in Hin. discriminate Hin.
      * rewrite (Hunset2 Hin). exact Hresp1.
    + intros _. split.
      * destruct Hlook1 as [v Hv]. exists v. apply in_or_app. auto.
      * destruct Hlook2 as [v Hv]. exists v. apply in_or_app. auto.
Qed.

Lemma SetupLogging_shape fs verbose st :
  exists l pre st1,
    head pre = Some (EvLogNew l)
    /\ forallb is_startup_event pre = true
    /\ Log st1 = Some l
    /\ requestLogFile st1 = requestLogFile st
    /\ responseLogFile st1 = responseLogFile st
    /\ ((exists name h,
            List.filter is_open pre
            = [EvOpenFile fs name log_file_flags perm_0666 (h, None)]
            /\ SetupLogging fs verbose st
               = mkRun (outcome (setupChannels fs st1))
                       (final (setupChannels fs st1))
                       (pre ++ events (setupChannels fs st1)))
        \/ (exists name h e,
               List.filter is_open pre
               = [EvOpenFile fs name log_file_flags perm_0666 (h, Some e)]
               /\ SetupLogging fs verbose st = mkRun (Returned (Some e)) st1 pre)
        \/ (exists err msg,
               List.filter is_open pre = []
               /\ last pre = Some (EvFailOnError err msg false)
               /\ SetupLogging fs verbose st
                  = mkRun (Aborted ProcessTerminated) st1 pre)).
Proof.
  destruct (SetupLogging_after_New fs verbose st)
    as (l & r0 & -> & pre & st1 & Hpre & Hlog & Hreq & Hresp & Hcases).
  exists l, (EvLogNew l :: pre), st1. cbn in Hlog, Hreq, Hresp.
  split_and!; try assumption; try reflexivity.
  destruct Hcases as [(name & h & Hf & ->)|[(name & h & e & Hf & ->)
                     |(err & msg & Hf & Hlast & ->)]]; cbn.
  - left. exists name, h. split; [exact Hf|reflexivity].
  - right; left. exists name, h, e. split; [exact Hf|reflexivity].
  - right; right. exists err, msg. split; [exact Hf|].
    split; [|reflexivity].
    change (EvLogNew l :: pre) with ([EvLogNew l] ++ pre).
    apply last_app_nonempty. exact Hlast.
Qed.

Lemma startup_event_In (pre : list Event) (ev : Event) :
  forallb is_startup_event pre = true -> In ev pre ->
  is_startup_event ev = true.
Proof. intros Hall Hin. exact (proj1 (forallb_forall _ _) Hall ev Hin). Qed.

Lemma channel_event_In (evs : list Event) (ev : Event) :
  forallb is_channel_event evs = true -> In ev evs ->
  is_channel_event ev = true.
Proof. intros Hall Hin. exact (proj1 (forallb_forall _ _) Hall ev Hin). Qed.

Lemma open_event_In (pre : list Event) (ev : Event) :
  In ev pre -> is_open ev = true -> In ev (List.filter is_open pre).
Proof. intros Hin Ho. apply filter_In. auto. Qed.

(** *** The calls of the channel initializers *)

Lemma setupRequestLog_trace fs st l :
  Log st = Some l ->
  channel_trace "MONACO_REQUEST_LOG" fs
    (events (setupRequestLog fs st)) (outcome (setupRequestLog fs st)).
Proof.
  intros Hl.
  destruct (env_LookupEnv (world st) "MONACO_REQUEST_LOG") as [path|] eqn:Hv.
  - rewrite (setupRequestLog_set fs st l path Hl Hv). cbn zeta.
    destruct (env_Abs (world st) path) as [p [e1|]]; cbn.
    + right; left. eauto.
    + destruct (env_OpenFile _ fs p _ _) as [w2 [h [e1|]]]; cbn;
        right; right; eexists _, _, _, _, _; split; reflexivity.
  - rewrite (setupRequestLog_unset fs st l Hl Hv). left. eauto.
Qed.

Lemma setupResponseLog_trace fs st l :
  Log st = Some l ->
  channel_trace "MONACO_RESPONSE_LOG" fs
    (events (setupResponseLog fs st)) (outcome (setupResponseLog fs st)).
Proof.
  intros Hl.
  destruct (env_LookupEnv (world st) "MONACO_RESPONSE_LOG") as [path|] eqn:Hv.
  - rewrite (setupResponseLog_set fs st l path Hl Hv). cbn zeta.
    destruct (env_Abs (world st) path) as [p [e1|]]; cbn.
    + right; left. eauto.
    + destruct (env_OpenFile _ fs p _ _) as [w2 [h [e1|]]]; cbn;
        right; right; eexists _, _, _, _, _; split; reflexivity.
  - rewrite (setupResponseLog_unset fs st l Hl Hv). left. eauto.
Qed.

(** The channel sequence: the request channel, then, unless it failed, the
    response channel, whose outcome is then the outcome of the whole. *)
Lemma setupChannels_trace fs st l :
  Log st = Some l ->
  exists E1 o1 E2,
    events (setupChannels fs st) = E1 ++ E2
    /\ channel_trace "MONACO_REQUEST_LOG" fs E1 o1
    /\ ((o1 = Returned None
         /\ channel_trace "MONACO_RESPONSE_LOG" fs E2
              (outcome (setupChannels fs st)))
        \/ (exists e, o1 = Returned (Some e) /\ E2 = []
                      /\ outcome (setupChannels fs st) = o1)).
Proof.
  intros Hl.
  pose proof (setupRequestLog_trace fs st l Hl) as Ht1.
  destruct (setupRequestLog_summary fs st l Hl)
    as ([o1 Ho1] & _ & Hlog1 & _).
  exists (events (setupRequestLog fs st)), (outcome (setupRequestLog fs st)).
  unfold setupChannels, bind, ret. cbv beta iota zeta. rewrite Ho1.
  rewrite Ho1 in Ht1.
  destruct o1 as [e1|]; cbv beta iota zeta; cbn [outcome final events].
  - exists []. split_and!; [reflexivity|exact Ht1|]. right. eauto.
  - set (st1 := final (setupRequestLog fs st)) in *.
    assert (Hl1 : Log st1 = Some l) by congruence.
    pose proof (setupResponseLog_trace fs st1 l Hl1) as Ht2.
    destruct (setupResponseLog_summary fs st1 l Hl1) as ([o2 Ho2] & _).
    rewrite Ho2. rewrite Ho2 in Ht2. cbv beta iota zeta.
    assert (Hrun : forall st',
               (match o2 with
                | Some _ => fun st0 : State W => mkRun (Returned o2) st0 []
                | None => fun st0 : State W => mkRun (Returned None) st0 []
                end) st' = mkRun (Returned o2) st' [])
      by (destruct o2; reflexivity).
    rewrite Hrun. cbn [outcome final events]. rewrite app_nil_r.
    exists (events (setupResponseLog fs st1)).
    split_and!; [reflexivity|exact Ht1|]. left. split; [reflexivity|exact Ht2].
Qed.

Lemma cons_eq_inv {A} (x y : A) (l l' : list A) :
  x :: l = y :: l' -> x = y /\ l = l'.
Proof. intros [= -> ->]. auto. Qed.

(** Splitting a known list at an element. *)
Ltac split_at Hs :=
  lazymatch type of Hs with
  | [] = ?pre ++ _ :: _ => destruct pre; discriminate Hs
  | _ :: _ = ?pre ++ _ :: _ =>
      let Hhead := fresh "Hhead" in
      destruct pre as [|? pre];
      [ cbn in Hs; apply cons_eq_inv in Hs as [Hhead Hs]
      | cbn in Hs; apply cons_eq_inv in Hs as [_ Hs]; split_at Hs ]
  end.

Lemma channel_pair_adjacent fs (E1 E2 : list Event) o1 o pre k path post :
  channel_trace "MONACO_REQUEST_LOG" fs E1 o1 ->
  (o1 = Returned None /\ channel_trace "MONACO_RESPONSE_LOG" fs E2 o)
  \/ (exists e, o1 = Returned (Some e) /\ E2 = [] /\ o = o1) ->
  E1 ++ E2 = pre ++ EvLookupEnv k (Some path) :: post ->
  resolved_then_opened fs path post o.
Proof.
  intros Ht1 Hrest Hs. unfold resolved_then_opened.
  destruct Ht1 as [(c1 & -> & ->)|[(path1 & p1 & e1 & -> & ->)
                  |(path1 & p1 & c1 & h1 & oe1 & -> & ->)]];
    (destruct Hrest as [[Ho1 Ht2]|(e & Ho1 & -> & ->)];
     [ destruct Ht2 as [(c2 & -> & ->)|[(path2 & p2 & e2 & -> & ->)
                       |(path2 & p2 & c2 & h2 & oe2 & -> & ->)]]
     | ]);
    try discriminate Ho1; cbn in Hs; split_at Hs;
    try discriminate Hhead; injection Hhead as <- <-; subst post;
    eexists _, _; (split; [reflexivity|]); cbn;
    (split; [intros ? [=]; subst; try (split; [reflexivity|]); congruence|]);
    try (intros [=]; fail);
    intros _; eexists _, _, _; (split; [reflexivity|]); cbn;
    intros ? Hr; subst; try discriminate Hr;
    try (injection Ho1 as <-; discriminate Hr);
    split; congruence.
Qed.

Lemma split_after_startup (pre0 E pre post : list Event) (x : Event) :
  forallb is_startup_event pre0 = true ->
  is_startup_event x = false ->
  pre0 ++ E = pre ++ x :: post ->
  exists pre', pre = pre0 ++ pre' /\ E = pre' ++ x :: post.
Proof.
  revert pre. induction pre0 as [|a pre0 IH]; intros pre Hall Hx Hs.
  - exists pre. auto.
  - cbn in Hall. apply andb_true_iff in Hall as [Ha Hall].
    destruct pre as [|b pre]; cbn in Hs; apply cons_eq_inv in Hs as [Hab Hs].
    + congruence.
    + destruct (IH pre Hall Hx Hs) as (pre' & -> & HE).
      exists pre'. split; [subst; reflexivity|exact HE].
Qed.

Lemma channel_trace_head key fs evs o :
  channel_trace key fs evs o -> exists v rest, evs = EvLookupEnv key v :: rest.
Proof.
  intros [(c & -> & _)|[(path & p & e & -> & _)
         |(path & p & c & h & oe & -> & _)]]; eauto.
Qed.

Lemma channel_trace_failure key fs evs e :
  channel_trace key fs evs (Returned (Some e)) ->
  exists ev, last evs = Some ev /\ channel_failure e ev.
Proof.
  intros [(c & -> & [=])|[(path & p & e' & -> & [= <-])
         |(path & p & c & h & oe & -> & [= <-])]];
    eexists; (split; [reflexivity|]); cbn; auto.
Qed.

Lemma channel_trace_key key fs evs o k v :
  channel_trace key fs evs o -> In (EvLookupEnv k v) evs -> k = key.
Proof.
  intros [(c & -> & _)|[(path & p & e & -> & _)
         |(path & p & c & h & oe & -> & _)]] Hin;
    repeat destruct Hin as [Hin|Hin]; try discriminate Hin;
    try contradiction; congruence.
Qed.

Lemma channel_trace_unset key fs evs o :
  channel_trace key fs evs o -> In (EvLookupEnv key None) evs ->
  (exists c, evs = [EvLookupEnv key None; EvLogger c]) /\ o = Returned None.
Proof.
  intros [(c & -> & ->)|[(path & p & e & -> & _)
         |(path & p & c & h & oe & -> & _)]] Hin.
  - eauto.
  - repeat destruct Hin as [Hin|Hin]; try discriminate Hin; contradiction.
  - repeat destruct Hin as [Hin|Hin]; try discriminate Hin; contradiction.
Qed.

(** A variable found unset leaves its channel's handle alone, whatever
    happens next. *)
Lemma SetupLogging_unset_lookup_keeps_handle fs verbose st :
  (In (EvLookupEnv "MONACO_REQUEST_LOG" None)
      (events (SetupLogging fs verbose st)) ->
   requestLogFile (final (SetupLogging fs verbose st)) = requestLogFile st)
  /\ (In (EvLookupEnv "MONACO_RESPONSE_LOG" None)
         (events (SetupLogging fs verbose st)) ->
      responseLogFile (final (SetupLogging fs verbose st)) = responseLogFile st).
Proof.
  destruct (SetupLogging_shape fs verbose st)
    as (l & pre & st1 & _ & Hpre & Hlog & Hreq & Hresp & Hcases).
  assert (Hno : forall k v, ~ In (EvLookupEnv k v) pre).
  { intros k v Hk. apply (startup_event_In _ _ Hpre) in Hk. discriminate Hk. }
  destruct Hcases as [(name & h & _ & ->)|[(name & h & e & _ & ->)
                     |(err & msg & _ & _ & ->)]]; cbn;
    try (split; intros Hin; destruct (Hno _ _ Hin)).
  destruct (setupChannels_summary fs st1 l Hlog)
    as (_ & _ & _ & _ & Hunreq & Hunresp & _).
  split; intros Hin; apply in_app_or in Hin as [Hin|Hin];
    try destruct (Hno _ _ Hin).
  - rewrite (Hunreq Hin). exact Hreq.
  - rewrite (Hunresp Hin). exact Hresp.
Qed.

(** With both variables unset [SetupLogging] succeeds, and the only file
    it opened is the log file. *)
Lemma SetupLogging_both_unset fs verbose st :
  In (EvLookupEnv "MONACO_REQUEST_LOG" None)
     (events (SetupLogging fs verbose st)) ->
  In (EvLookupEnv "MONACO_RESPONSE_LOG" None)
     (events (SetupLogging fs verbose st)) ->
  outcome (SetupLogging fs verbose st) = Returned None
  /\ forall ev, In ev (events (SetupLogging fs verbose st)) ->
                is_open ev = true ->
                exists name h,
                  ev = EvOpenFile fs name log_file_flags perm_0666 (h, None).
Proof.
  destruct (SetupLogging_shape fs verbose st)
    as (l & pre & st1 & _ & Hpre & Hlog & _ & _ & Hcases).
  assert (Hno : forall k v, ~ In (EvLookupEnv k v) pre).
  { intros k v Hk. apply (startup_event_In _ _ Hpre) in Hk. discriminate Hk. }
  destruct Hcases as [(name & h & Hf & ->)|[(name & h & e & _ & ->)
                     |(err & msg & _ & _ & ->)]]; cbn;
    try (intros Hin; destruct (Hno _ _ Hin)).
  destruct (setupChannels_trace fs st1 l Hlog)
    as (E1 & o1 & E2 & -> & Ht1 & Hrest).
  intros Hin1 Hin2.
  assert (HE1 : In (EvLookupEnv "MONACO_REQUEST_LOG" None) E1).
  { apply in_app_or in Hin1 as [Hin1|Hin1]; [destruct (Hno _ _ Hin1)|].
    apply in_app_or in Hin1 as [Hin1|Hin1]; [exact Hin1|].
    destruct Hrest as [[_ Ht2]|(e & _ & -> & _)]; [|destruct Hin1].
    apply (channel_trace_key _ _ _ _ _ _ Ht2) in Hin1. discriminate Hin1. }
  destruct (channel_trace_unset _ _ _ _ Ht1 HE1) as [[c1 ->] ->].
  destruct Hrest as [[_ Ht2]|(e & [=] & _)].
  assert (HE2 : In (EvLookupEnv "MONACO_RESPONSE_LOG" None) E2).
  { apply in_app_or in Hin2 as [Hin2|Hin2]; [destruct (Hno _ _ Hin2)|].
    apply in_app_or in Hin2 as [Hin2|Hin2]; [|exact Hin2].
    repeat destruct Hin2 as [Hin2|Hin2]; try discriminate Hin2;
      contradiction. }
  destruct (channel_trace_unset _ _ _ _ Ht2 HE2) as [[c2 ->] Ho].
  split; [exact Ho|].
  intros ev Hin Hopen. apply in_app_or in Hin as [Hin|Hin].
  - apply (open_event_In _ _ Hin) in Hopen. rewrite Hf in Hopen.
    destruct Hopen as [<-|[]]. eauto.
  - repeat destruct Hin as [Hin|Hin]; try contradiction;
      subst ev; discriminate Hopen.
Qed.

(** *** Properties of the gate *)

(** C7. When a channel's environment variable is unset: the channel
    initializer, run with a logger in [Log] as [SetupLogging] runs it,
    returns nil, opens no file and leaves both stored handles as they were,
    so that a channel that was inactive is still inactive; and in every run
    of [SetupLogging], from any state, a variable found unset leaves its
    channel's handle as it was, and with both variables found unset
    [SetupLogging] returns nil having opened no file but the log file. *)
Theorem unset_variable_leaves_channel_inactive fs st :
  (forall l,
     Log st = Some l ->
     (env_LookupEnv (world st) "MONACO_REQUEST_LOG" = None ->
      outcome (setupRequestLog fs st) = Returned None
      /\ existsb is_open (events (setupRequestLog fs st)) = false
      /\ requestLogFile (final (setupRequestLog fs st)) = requestLogFile st
      /\ responseLogFile (final (setupRequestLog fs st)) = responseLogFile st
      /\ (requestLogFile st = None ->
          outcome (IsRequestLoggingActive (final (setupRequestLog fs st)))
          = Returned false))
     /\ (env_LookupEnv (world st) "MONACO_RESPONSE_LOG" = None ->
         outcome (setupResponseLog fs st) = Returned None
         /\ existsb is_open (events (setupResponseLog fs st)) = false
         /\ requestLogFile (final (setupResponseLog fs st)) = requestLogFile st
         /\ responseLogFile (final (setupResponseLog fs st))
            = responseLogFile st
         /\ (responseLogFile st = None ->
             outcome (IsResponseLoggingActive (final (setupResponseLog fs st)))
             = Returned false)))
  /\ (forall verbose,
        (In (EvLookupEnv "MONACO_REQUEST_LOG" None)
            (events (SetupLogging fs verbose st)) ->
         requestLogFile (final (SetupLogging fs verbose st)) = requestLogFile st
         /\ (requestLogFile st = None ->
             outcome (IsRequestLoggingActive
                        (final (SetupLogging fs verbose st)))
             = Returned false))
        /\ (In (EvLookupEnv "MONACO_RESPONSE_LOG" None)
               (events (SetupLogging fs verbose st)) ->
            responseLogFile (final (SetupLogging fs verbose st))
            = responseLogFile st
            /\ (responseLogFile st = None ->
                outcome (IsResponseLoggingActive
                           (final (SetupLogging fs verbose st)))
                = Returned false))
        /\ (In (EvLookupEnv "MONACO_REQUEST_LOG" None)
               (events (SetupLogging fs verbose st)) ->
            In (EvLookupEnv "MONACO_RESPONSE_LOG" None)
               (events (SetupLogging fs verbose st)) ->
            outcome (SetupLogging fs verbose st) = Returned None
            /\ forall ev,
                 In ev (events (SetupLogging fs verbose st)) ->
                 is_open ev = true ->
                 exists name h,
                   ev = EvOpenFile fs name
                          (Z.lor (Z.lor os.O_CREATE os.O_WRONLY) os.O_APPEND)
                          perm_0666 (h, None))).
Proof.
  split.
  - intros l Hl. split; intros Hv.
    + rewrite (setupRequestLog_unset fs st l Hl Hv). cbn.
      repeat split. intros ->. reflexivity.
    + rewrite (setupResponseLog_unset fs st l Hl Hv). cbn.
      repeat split. intros ->. reflexivity.
  - intros verbose.
    destruct (SetupLogging_unset_lookup_keeps_handle fs verbose st)
      as [Hreq Hresp].
    split_and!.
    + intros Hin. specialize (Hreq Hin). split; [exact Hreq|].
      intros Hnil. unfold IsRequestLoggingActive, gets. cbn.
      rewrite Hreq, Hnil. reflexivity.
    + intros Hin. specialize (Hresp Hin). split; [exact Hresp|].
      intros Hnil. unfold IsResponseLoggingActive, gets. cbn.
      rewrite Hresp, Hnil. reflexivity.
    + exact (SetupLogging_both_unset fs verbose st).
Qed.

(** C8. In every run of [SetupLogging]: once the log file is open the
    request variable is looked up; a lookup that finds a variable set is
    followed at once by the resolution of its value, which, if it fails,
    ends the run with its error returned, and otherwise by the debug line
    and the opening of the resolved path (truncate, create, write-only,
    mode 0644) through [fs], which, if it fails, ends the run with its error
    returned; after the request variable, the response variable is looked
    up too unless the run ended on a failure of the request channel, which
    it returned; and any failed resolution or dump-file open in the run is
    what [SetupLogging] returns. *)
Theorem SetupLogging_returns_channel_errors fs verbose st :
  (forall name h,
     In (EvOpenFile fs name
           (Z.lor (Z.lor os.O_CREATE os.O_WRONLY) os.O_APPEND) perm_0666
           (h, None))
        (events (SetupLogging fs verbose st)) ->
     exists v, In (EvLookupEnv "MONACO_REQUEST_LOG" v)
                  (events (SetupLogging fs verbose st)))
  /\ (forall pre k path post,
        events (SetupLogging fs verbose st)
        = pre ++ EvLookupEnv k (Some path) :: post ->
        exists a post1,
          post = EvAbs path a :: post1
          /\ (forall e, snd a = Some e ->
                        post1 = []
                        /\ outcome (SetupLogging fs verbose st)
                           = Returned (Some e))
          /\ (snd a = None ->
              exists c r post2,
                post1
                = EvLogger c
                  :: EvOpenFile fs (fst a)
                       (Z.lor (Z.lor os.O_TRUNC os.O_CREATE) os.O_WRONLY)
                       perm_0644 r
                  :: post2
                /\ forall e, snd r = Some e ->
                             post2 = []
                             /\ outcome (SetupLogging fs verbose st)
                                = Returned (Some e)))
  /\ (forall v,
        In (EvLookupEnv "MONACO_REQUEST_LOG" v)
           (events (SetupLogging fs verbose st)) ->
        (exists v', In (EvLookupEnv "MONACO_RESPONSE_LOG" v')
                       (events (SetupLogging fs verbose st)))
        \/ (exists e ev,
               outcome (SetupLogging fs verbose st) = Returned (Some e)
               /\ last (events (SetupLogging fs verbose st)) = Some ev
               /\ ((exists path p, ev = EvAbs path (p, Some e))
                   \/ (exists path h,
                          ev = EvOpenFile fs path
                                 (Z.lor (Z.lor os.O_TRUNC os.O_CREATE)
                                        os.O_WRONLY)
                                 perm_0644 (h, Some e)))))
  /\ (forall e,
        (exists path p,
            In (EvAbs path (p, Some e)) (events (SetupLogging fs verbose st)))
        \/ (exists fs' path h,
               In (EvOpenFile fs' path
                     (Z.lor (Z.lor os.O_TRUNC os.O_CREATE) os.O_WRONLY)
                     perm_0644 (h, Some e))
                  (events (SetupLogging fs verbose st))) ->
        outcome (SetupLogging fs verbose st) = Returned (Some e)).
Proof.
  split_and!.
  - intros name h Hin.
    destruct (SetupLogging_shape fs verbose st)
      as (l & pre & st1 & _ & Hpre & Hlog & _ & _ & Hcases).
    destruct Hcases as [(name' & h' & Hf & HS)|[(name' & h' & e' & Hf & HS)
                       |(err & msg & Hf & _ & HS)]]; rewrite HS in *; cbn in *.
    + destruct (setupChannels_trace fs st1 l Hlog)
        as (E1 & o1 & E2 & -> & Ht1 & _).
      destruct (channel_trace_head _ _ _ _ Ht1) as (v & rest & ->).
      exists v. apply in_or_app. right. left. reflexivity.
    + apply open_event_In in Hin; [|reflexivity].
      rewrite Hf in Hin. destruct Hin as [Hin|[]]. discriminate Hin.
    + apply open_event_In in Hin; [|reflexivity].
      rewrite Hf in Hin. destruct Hin.
  - intros pre0 k path post Hs.
    destruct (SetupLogging_shape fs verbose st)
      as (l & pre & st1 & _ & Hpre & Hlog & _ & _ & Hcases).
    assert (Hno : ~ In (EvLookupEnv k (Some path)) pre).
    { intros Hk. apply (startup_event_In _ _ Hpre) in Hk. discriminate Hk. }
    destruct Hcases as [(name' & h' & Hf & HS)|[(name' & h' & e' & Hf & HS)
                       |(err & msg & Hf & _ & HS)]]; rewrite HS in *; cbn in *.
    + destruct (setupChannels_trace fs st1 l Hlog)
        as (E1 & o1 & E2 & HE & Ht1 & Hrest).
      rewrite HE in Hs.
      destruct (split_after_startup pre (E1 ++ E2) pre0 post
                  (EvLookupEnv k (Some path)) Hpre eq_refl Hs)
        as (pre' & _ & Hs').
      exact (channel_pair_adjacent fs E1 E2 o1 _ pre' k path post
               Ht1 Hrest Hs').
    + exfalso. apply Hno. rewrite Hs. apply in_or_app. right. left. reflexivity.
    + exfalso. apply Hno. rewrite Hs. apply in_or_app. right. left. reflexivity.
  - intros v Hin.
    destruct (SetupLogging_shape fs verbose st)
      as (l & pre & st1 & _ & Hpre & Hlog & _ & _ & Hcases).
    assert (Hno : ~ In (EvLookupEnv "MONACO_REQUEST_LOG" v) pre).
    { intros Hk. apply (startup_event_In _ _ Hpre) in Hk. discriminate Hk. }
    destruct Hcases as [(name' & h' & Hf & HS)|[(name' & h' & e' & Hf & HS)
                       |(err & msg & Hf & _ & HS)]]; rewrite HS in *; cbn in *;
      try contradiction.
    destruct (setupChannels_trace fs st1 l Hlog)
      as (E1 & o1 & E2 & -> & Ht1 & [[-> Ht2]|(e & -> & -> & Ho)]).
    + left. destruct (channel_trace_head _ _ _ _ Ht2) as (v' & rest & ->).
      exists v'. apply in_or_app. right. apply in_or_app. right.
      left. reflexivity.
    + right. rewrite Ho, app_nil_r.
      destruct (channel_trace_failure _ _ _ _ Ht1) as (ev & Hlast & Hfail).
      exists e, ev. split; [reflexivity|].
      split; [apply last_app_nonempty; exact Hlast|].
      destruct Ht1 as [(c & -> & [=])|[(path & p & e' & -> & [= <-])
                      |(path & p & c & h & oe & -> & [= <-])]];
        injection Hlast as <-; eauto.
  - intros e [(path & p & Hin)|(fs' & path & h & Hin)];
      apply (SetupLogging_surfaces fs verbose st e _ Hin); cbn.
    + reflexivity.
    + split; reflexivity.
Qed.

End Activation.

(* ===================================================================== *)
(** ** The properties on the in-memory environment *)
(* ===================================================================== *)

Lemma empty_content_type_list_aborts_witness :
  LogRequest "abc123" Mem.empty_list_request (Mem.active false false)
  = mkRun (Aborted (IndexOutOfRange (-1) 0)) (Mem.active false false) []
  /\ LogResponse "abc123" Mem.empty_list_response (Mem.active false false)
     = mkRun (Aborted (IndexOutOfRange (-1) 0)) (Mem.active false false) [].
Proof.
  split.
  - apply (proj1 (empty_content_type_list_aborts "abc123" (Mem.active false false))
             Mem.empty_list_request (FileHandle 0)); reflexivity.
  - apply (proj2 (empty_content_type_list_aborts "abc123" (Mem.active false false))
             Mem.empty_list_response (FileHandle 1)); reflexivity.
Defined.

Lemma content_type_last_value_decides_witness :
  head (events (LogRequest "abc123" Mem.multi_request (Mem.active false false)))
  = Some (EvDumpRequestOut Mem.multi_request (shouldDumpBody "text/plain")
            (snd (env_DumpRequestOut (world (Mem.active false false))
                    Mem.multi_request (shouldDumpBody "text/plain"))))
  /\ head (events (LogResponse "abc123" Mem.multi_response
                     (Mem.active false false)))
     = Some (EvDumpResponse Mem.multi_response (shouldDumpBody "text/plain")
               (snd (env_DumpResponse (world (Mem.active false false))
                       Mem.multi_response (shouldDumpBody "text/plain"))))
  /\ head (events (LogRequest "abc123" Mem.bare_request (Mem.active false false)))
     = Some (EvDumpRequestOut Mem.bare_request false
               (snd (env_DumpRequestOut (world (Mem.active false false))
                       Mem.bare_request false))).
Proof.
  pose proof (content_type_last_value_decides "abc123" (Mem.active false false))
    as [Hreq Hresp].
  split; [|split].
  - apply (proj1 (Hreq Mem.multi_request (FileHandle 0) eq_refl)
             ["application/json"; "text/plain"] "text/plain"); reflexivity.
  - apply (proj1 (Hresp Mem.multi_response (FileHandle 1) eq_refl)
             ["application/json"; "text/plain"] "text/plain"); reflexivity.
  - apply (proj2 (Hreq Mem.bare_request (FileHandle 0) eq_refl)); reflexivity.
Defined.

Lemma request_id_line_asymmetry_witness :
  writes_to (FileHandle 0)
    (events (LogRequest EmptyString Mem.json_request (Mem.active false false)))
  = [("Request-ID: " ++ EmptyString ++ LF
      ++ Mem.wire "POST https://example.org/api" "{}" true
      ++ LF ++ separator ++ LF)%string]
  /\ writes_to (FileHandle 1)
       (events (LogResponse EmptyString Mem.json_response (Mem.active false false)))
     = [(Mem.wire "HTTP/1.1 200 OK" "{}" true ++ LF ++ separator ++ LF)%string]
  /\ exists rest,
       writes_to (FileHandle 1)
         (events (LogResponse "abc123" Mem.json_response (Mem.active false false)))
       = ("Request-ID: " ++ "abc123" ++ LF)%string :: rest
       /\ (rest = []
           \/ rest = [(Mem.wire "HTTP/1.1 200 OK" "{}" true
                       ++ LF ++ separator ++ LF)%string]).
Proof.
  split; [|split].
  - apply (proj1 (request_id_line_asymmetry EmptyString (Mem.active false false))
             Mem.json_request (FileHandle 0) true
             (Mem.wire "POST https://example.org/api" "{}" true));
      [reflexivity | left; reflexivity].
  - destruct (proj2 (request_id_line_asymmetry EmptyString
                       (Mem.active false false))
                Mem.json_response (FileHandle 1) true
                (Mem.wire "HTTP/1.1 200 OK" "{}" true))
      as [Hempty _]; [reflexivity | left; reflexivity |].
    apply Hempty. reflexivity.
  - destruct (proj2 (request_id_line_asymmetry "abc123"
                       (Mem.active false false))
                Mem.json_response (FileHandle 1) true
                (Mem.wire "HTTP/1.1 200 OK" "{}" true))
      as [_ Hid]; [reflexivity | left; reflexivity |].
    apply Hid. discriminate.
Defined.

Lemma request_record_text_witness :
  exists b dump n,
    events (LogRequest "abc123" Mem.json_request (Mem.active false false))
    = [EvDumpRequestOut Mem.json_request b (dump, None);
       EvWriteString (FileHandle 0)
         ("Request-ID: " ++ "abc123" ++ LF ++ dump ++ LF
          ++ string_of_list_ascii (repeat "="%char 25) ++ LF)%string
         (n, None);
       EvSync (FileHandle 0) None].
Proof.
  apply (request_record_text "abc123" Mem.json_request (Mem.active false false)
           (FileHandle 0)); reflexivity.
Defined.

Lemma inactive_channel_is_a_no_op_witness :
  LogRequest "abc123" Mem.json_request (Mem.start Mem.quiet)
  = mkRun (Returned None) (Mem.start Mem.quiet) []
  /\ LogResponse "abc123" Mem.json_response (Mem.start Mem.quiet)
     = mkRun (Returned None) (Mem.start Mem.quiet) [].
Proof.
  split.
  - apply (proj1 (inactive_channel_is_a_no_op "abc123" (Mem.start Mem.quiet)));
      reflexivity.
  - apply (proj2 (inactive_channel_is_a_no_op "abc123" (Mem.start Mem.quiet)));
      reflexivity.
Defined.

Lemma unset_variable_leaves_channel_inactive_witness :
  (outcome (setupRequestLog (FsObject 0) (Scenario.started Mem.quiet))
   = Returned None
   /\ existsb is_open
        (events (setupRequestLog (FsObject 0) (Scenario.started Mem.quiet)))
      = false
   /\ requestLogFile
        (final (setupRequestLog (FsObject 0) (Scenario.started Mem.quiet)))
      = None
   /\ responseLogFile
        (final (setupRequestLog (FsObject 0) (Scenario.started Mem.quiet)))
      = None
   /\ (requestLogFile (Scenario.started Mem.quiet) = None ->
       outcome (IsRequestLoggingActive
                  (final (setupRequestLog (FsObject 0)
                            (Scenario.started Mem.quiet))))
       = Returned false))
  /\ outcome (setupResponseLog (FsObject 0) (Scenario.started Mem.quiet))
     = Returned None
  /\ outcome (SetupLogging (FsObject 0) false (Mem.start Mem.quiet))
     = Returned None
  /\ outcome (IsRequestLoggingActive
                (final (SetupLogging (FsObject 0) false (Mem.start Mem.quiet))))
     = Returned false.
Proof.
  pose proof (unset_variable_leaves_channel_inactive
                (FsObject 0) (Scenario.started Mem.quiet)) as [Hchan _].
  pose proof (unset_variable_leaves_channel_inactive
                (FsObject 0) (Mem.start Mem.quiet)) as [_ Hsetup].
  destruct (Hsetup false) as (Hreq & _ & Hboth).
  split; [|split; [|split]].
  - apply (proj1 (Hchan (LoggerObject 0) eq_refl)); reflexivity.
  - exact (proj1 (proj2 (Hchan (LoggerObject 0) eq_refl) eq_refl)).
  - apply Hboth; vm_compute; repeat (first [left; reflexivity | right]).
  - apply Hreq; [|reflexivity].
    vm_compute; repeat (first [left; reflexivity | right]).
Defined.

Lemma SetupLogging_returns_channel_errors_witness :
  outcome (SetupLogging (FsObject 0) false (Mem.start Scenario.request_locked))
  = Returned (Some (Err "permission denied"))
  /\ outcome (SetupLogging (FsObject 0) false (Mem.start Mem.response_locked))
     = Returned (Some (Err "permission denied")).
Proof.
  split.
  - destruct (proj1 (proj2 (SetupLogging_returns_channel_errors
                              (FsObject 0) false
                              (Mem.start Scenario.request_locked)))
                Scenario.startup_calls "MONACO_REQUEST_LOG" "req.log"
                (Scenario.channel_calls "request" "req.log"
                   (None, Some (Err "permission denied"))))
      as (a & post1 & Hpost & _ & Hopen); [vm_compute; reflexivity|].
    apply cons_eq_inv in Hpost as [Ha Hpost].
    injection Ha as <-. subst post1.
    destruct (Hopen eq_refl) as (c & r & post2 & Hp & Hr).
    apply cons_eq_inv in Hp as [_ Hp]. apply cons_eq_inv in Hp as [Ho _].
    injection Ho as <-.
    exact (proj2 (Hr (Err "permission denied") eq_refl)).
  - destruct (proj1 (proj2 (SetupLogging_returns_channel_errors
                              (FsObject 0) false
                              (Mem.start Mem.response_locked)))
                (Scenario.startup_calls
                 ++ EvLookupEnv "MONACO_REQUEST_LOG" (Some "req.log")
                 :: Scenario.channel_calls "request" "req.log"
                      (Some (FileHandle 1), None))
                "MONACO_RESPONSE_LOG" "resp.log"
                (Scenario.channel_calls "response" "resp.log"
                   (None, Some (Err "permission denied"))))
      as (a & post1 & Hpost & _ & Hopen); [vm_compute; reflexivity|].
    apply cons_eq_inv in Hpost as [Ha Hpost].
    injection Ha as <-. subst post1.
    destruct (Hopen eq_refl) as (c & r & post2 & Hp & Hr).
    apply cons_eq_inv in Hp as [_ Hp]. apply cons_eq_inv in Hp as [Ho _].
    injection Ho as <-.
    exact (proj2 (Hr (Err "permission denied") eq_refl)).
Defined.

Lemma failure_ends_the_record_witness :
  (@nil Event = []
   /\ outcome (LogRequest "abc123" Mem.json_request (Mem.active true false))
      = Returned (Some (Err "no space left on device")))
  /\ last (events (LogResponse "abc123" Mem.json_response (Mem.active false false)))
     = Some (EvSync (FileHandle 1) None).
Proof.
  pose proof (failure_ends_the_record "abc123" (Mem.active true false))
    as [Hreq _].
  pose proof (failure_ends_the_record "abc123" (Mem.active false false))
    as [_ Hresp].
  split.
  - apply (proj1 (Hreq Mem.json_request)
             [EvDumpRequestOut Mem.json_request true
                (Mem.wire "POST https://example.org/api" "{}" true, None)]
             (EvWriteString (FileHandle 0)
                (fmt.Sprintf request_record_format
                   ["abc123"; Mem.wire "POST https://example.org/api" "{}" true])
                (0%Z, Some (Err "no space left on device")))
             []); reflexivity.
  - apply (proj2 (Hresp Mem.json_response) (FileHandle 1)); reflexivity.
Defined.

(* ===================================================================== *)
(** ** More on BodyDumpPolicy *)
(* ===================================================================== *)

Lemma append_String (c : ascii) (a rest : string) :
  (String c a ++ rest)%string = String c (a ++ rest)%string.
Proof. reflexivity. Qed.

Lemma prefix_iff_append (a b : string) :
  String.prefix a b = true <-> exists rest, b = (a ++ rest)%string.
Proof.
  revert b. induction a as [|c a IH]; intros b.
  - split; [intros _; exists b; reflexivity | intros _; destruct b; reflexivity].
  - destruct b as [|d b]; cbn.
    + split; [discriminate | intros [rest Hr]; discriminate Hr].
    + destruct (Ascii.ascii_dec c d) as [->|Hne].
      * rewrite IH. split; intros [rest Hr]; exists rest;
          rewrite append_String in *; congruence.
      * split; [discriminate|].
        intros [rest Hr]. rewrite append_String in Hr. congruence.
Qed.

Lemma prefix_length (a b : string) :
  String.prefix a b = true -> String.length a <= String.length b.
Proof.
  intros [rest ->]%prefix_iff_append.
  induction a as [|c a IH]; [cbn; lia|].
  rewrite append_String. cbn. lia.
Qed.

Lemma prefix_trans (a b c : string) :
  String.prefix a b = true -> String.prefix b c = true ->
  String.prefix a c = true.
Proof.
  intros [r1 ->]%prefix_iff_append [r2 ->]%prefix_iff_append.
  apply prefix_iff_append. exists (r1 ++ r2)%string.
  induction a as [|x a IH]; [reflexivity|].
  rewrite !append_String. congruence.
Qed.

Lemma prefix_antisym (a b : string) :
  String.prefix a b = true -> String.prefix b a = true -> a = b.
Proof.
  revert b. induction a as [|c a IH]; intros [|d b]; cbn; try discriminate.
  - reflexivity.
  - destruct (Ascii.ascii_dec c d) as [->|Hne]; [|discriminate].
    destruct (Ascii.ascii_dec d d) as [_|Hne]; [|contradiction].
    intros H1 H2. f_equal. exact (IH b H1 H2).
Qed.

(** X1. [shouldDumpBody] answers true exactly for the initial segments of
    "text/", "application/json" and "application/xml": the content types
    that one of these three names starts with, the empty string among
    them. *)
Theorem shouldDumpBody_initial_segments (contentType : string) :
  shouldDumpBody contentType = true
  <-> exists rest,
        "text/" = (contentType ++ rest)%string
        \/ "application/json" = (contentType ++ rest)%string
        \/ "application/xml" = (contentType ++ rest)%string.
Proof.
  rewrite shouldDumpBody_spec, !orb_true_iff, !prefix_iff_append.
  split.
  - intros [[[r Hr]|[r Hr]]|[r Hr]]; exists r; auto.
  - intros [r [Hr|[Hr|Hr]]]; eauto.
Qed.

(** X2. [shouldDumpBody] and the documented policy are both true on
    exactly three content types: "text/", "application/json" and
    "application/xml" themselves. *)
Theorem shouldDumpBody_meets_policy_on_three_names (contentType : string) :
  shouldDumpBody contentType = true
  /\ starts_with_dumpable_prefix contentType = true
  <-> contentType = "text/"
      \/ contentType = "application/json"
      \/ contentType = "application/xml".
Proof.
  split.
  - rewrite shouldDumpBody_spec. unfold starts_with_dumpable_prefix.
    rewrite !orb_true_iff.
    intros [[[Hc|Hc]|Hc] [[Hp|Hp]|Hp]];
      first [ left; exact (prefix_antisym _ _ Hc Hp)
            | right; left; exact (prefix_antisym _ _ Hc Hp)
            | right; right; exact (prefix_antisym _ _ Hc Hp)
            | pose proof (prefix_trans _ _ _ Hp Hc) as Hx; discriminate Hx ].
  - intros [-> | [-> | ->]]; split; reflexivity.
Qed.

(** No content type longer than the longest of the three names, 16
    bytes, is accepted. *)
Lemma shouldDumpBody_rejects_long_types (contentType : string) :
  16 < String.length contentType -> shouldDumpBody contentType = false.
Proof.
  intros Hlen. rewrite shouldDumpBody_spec.
  destruct (String.prefix contentType "text/") eqn:H1;
    [apply prefix_length in H1; cbn in H1; lia|].
  destruct (String.prefix contentType "application/json") eqn:H2;
    [apply prefix_length in H2; cbn in H2; lia|].
  destruct (String.prefix contentType "application/xml") eqn:H3;
    [apply prefix_length in H3; cbn in H3; lia|].
  reflexivity.
Qed.

(* ===================================================================== *)
(** ** More on the recorder *)
(* ===================================================================== *)

Section RecorderMore.

Context {W : Type} `{Env W}.

Implicit Types (st : State W) (id : string) (f : File).

Local Arguments fmt.Sprintf : simpl never.

(** X4. The only external calls of [LogRequest] are the serializer on its
    request and [WriteString] and [Sync] on the file held in
    [requestLogFile]; the same for [LogResponse] and [responseLogFile].
    Neither opens a file, logs, or touches the other channel's file. *)
Theorem recorders_call_serializer_and_own_file_only id st :
  (forall req ev,
     In ev (events (LogRequest id req st)) ->
     exists f,
       requestLogFile st = Some f
       /\ ((exists b r, ev = EvDumpRequestOut req b r)
           \/ (exists s r, ev = EvWriteString f s r)
           \/ (exists r, ev = EvSync f r)))
  /\ (forall resp ev,
        In ev (events (LogResponse id resp st)) ->
        exists f,
          responseLogFile st = Some f
          /\ ((exists b r, ev = EvDumpResponse resp b r)
              \/ (exists s r, ev = EvWriteString f s r)
              \/ (exists r, ev = EvSync f r))).
Proof.
  split; intros m ev.
  - destruct (requestLogFile st) as [f|] eqn:Hf.
    + destruct (outcome (dumpBodyFor (http.Request.Header m) st))
        as [b|why] eqn:Hd.
      * rewrite (LogRequest_active id m st f b Hf Hd).
        answers; intros Hin; exists f; (split; [reflexivity|]);
          repeat destruct Hin as [<-|Hin]; try contradiction; eauto 6.
      * rewrite (LogRequest_aborts id m st f why Hf Hd). intros [].
    + rewrite (LogRequest_inactive id m st Hf). intros [].
  - destruct (responseLogFile st) as [f|] eqn:Hf.
    + destruct (outcome (dumpBodyFor (http.Response.Header m) st))
        as [b|why] eqn:Hd.
      * rewrite (LogResponse_active id m st f b Hf Hd).
        answers; intros Hin; exists f; (split; [reflexivity|]);
          repeat destruct Hin as [<-|Hin]; try contradiction; eauto 6.
      * rewrite (LogResponse_aborts id m st f why Hf Hd). intros [].
    + rewrite (LogResponse_inactive id m st Hf). intros [].
Qed.

(** X5. When [LogResponse] succeeds on an active channel its external
    calls are exactly: the serializer; for a non-empty id one [WriteString]
    of the line "Request-ID: <id>"; one [WriteString] of the dump, a
    newline, 25 '=' characters and a newline; one [Sync].  The id line and
    the dump are two separate writes. *)
Theorem response_record_text id resp st f :
  responseLogFile st = Some f ->
  outcome (LogResponse id resp st) = Returned None ->
  exists b dump,
    (id = EmptyString
     /\ exists n,
          events (LogResponse id resp st)
          = [EvDumpResponse resp b (dump, None);
             EvWriteString f
               (dump ++ LF ++ string_of_list_ascii (repeat "="%char 25) ++ LF)%string
               (n, None);
             EvSync f None])
    \/ (id <> EmptyString
        /\ exists n1 n2,
             events (LogResponse id resp st)
             = [EvDumpResponse resp b (dump, None);
                EvWriteString f ("Request-ID: " ++ id ++ LF)%string (n1, None);
                EvWriteString f
                  (dump ++ LF ++ string_of_list_ascii (repeat "="%char 25)
                   ++ LF)%string
                  (n2, None);
                EvSync f None]).
Proof.
  intros Hf.
  destruct (outcome (dumpBodyFor (http.Response.Header resp) st))
    as [b|why] eqn:Hd.
  - rewrite (LogResponse_active id resp st f b Hf Hd).
    answers; intros [=]; eexists _, _;
      first [ left; split; [apply String.eqb_eq; exact Hid|];
              eexists; reflexivity
            | right; split; [apply String.eqb_neq; exact Hid|];
              eexists _, _; reflexivity ].
  - rewrite (LogResponse_aborts id resp st f why Hf Hd). intros [=].
Qed.

(** X6. On an active channel, when the last "Content-Type" value is longer
    than 16 bytes (a JSON type with a charset parameter, say), the
    serializer is called without the body. *)
Theorem long_content_type_gets_no_body id st :
  (forall req f l x,
     requestLogFile st = Some f ->
     http.Request.Header req !! "Content-Type" = Some l ->
     last l = Some x ->
     16 < String.length x ->
     head (events (LogRequest id req st))
     = Some (EvDumpRequestOut req false
               (snd (env_DumpRequestOut (world st) req false))))
  /\ (forall resp f l x,
        responseLogFile st = Some f ->
        http.Response.Header resp !! "Content-Type" = Some l ->
        last l = Some x ->
        16 < String.length x ->
        head (events (LogResponse id resp st))
        = Some (EvDumpResponse resp false
                  (snd (env_DumpResponse (world st) resp false)))).
Proof.
  split; intros m f l x Hf Hh Hl Hlen.
  - apply (LogRequest_first_call id m st f _ Hf).
    rewrite (dumpBodyFor_last _ _ _ _ Hh Hl). cbn.
    rewrite (shouldDumpBody_rejects_long_types x Hlen). reflexivity.
  - apply (LogResponse_first_call id m st f _ Hf).
    rewrite (dumpBodyFor_last _ _ _ _ Hh Hl). cbn.
    rewrite (shouldDumpBody_rejects_long_types x Hlen). reflexivity.
Qed.

End RecorderMore.

(* ===================================================================== *)
(** ** More on the activation *)
(* ===================================================================== *)

Section ActivationMore.

Context {W : Type} `{Env W}.

Implicit Types (st : State W) (fs : Fs).

(** X11. If opening the log file (create, write-only, append) fails with
    [e], [SetupLogging] returns [e], looks up no environment variable and
    leaves both channel handles as they were. *)
Theorem log_file_failure_skips_the_channels fs verbose st fs' name perm h e :
  In (EvOpenFile fs' name (Z.lor (Z.lor os.O_CREATE os.O_WRONLY) os.O_APPEND)
                 perm (h, Some e))
     (events (SetupLogging fs verbose st)) ->
  outcome (SetupLogging fs verbose st) = Returned (Some e)
  /\ requestLogFile (final (SetupLogging fs verbose st)) = requestLogFile st
  /\ responseLogFile (final (SetupLogging fs verbose st)) = responseLogFile st
  /\ forall k v, ~ In (EvLookupEnv k v) (events (SetupLogging fs verbose st)).
Proof.
  destruct (SetupLogging_shape fs verbose st)
    as (l & pre & st1 & _ & Hpre & Hlog & Hreq & Hresp & Hcases).
  destruct Hcases as [(name' & h' & Hf & ->)|[(name' & h' & e' & Hf & ->)
                     |(err & msg & Hf & _ & ->)]]; cbn; intros Hin.
  - exfalso. apply in_app_or in Hin as [Hin|Hin].
    + apply open_event_In in Hin; [|reflexivity].
      rewrite Hf in Hin. destruct Hin as [Hin|[]]. discriminate Hin.
    + destruct (setupChannels_summary fs st1 l Hlog) as (_ & Hev & _).
      apply (channel_event_In _ _ Hev) in Hin. discriminate Hin.
  - apply open_event_In in Hin; [|reflexivity].
    rewrite Hf in Hin. destruct Hin as [Hin|[]].
    injection Hin; intros; subst.
    split_and!; try assumption; try reflexivity.
    intros k v Hk. apply (startup_event_In _ _ Hpre) in Hk. discriminate Hk.
  - exfalso. apply open_event_In in Hin; [|reflexivity].
    rewrite Hf in Hin. destruct Hin.
Qed.

(** X12. Unless [SetupLogging] returns nil, [responseLogFile] is what it
    was before the call. *)
Theorem SetupLogging_failure_keeps_response_handle fs verbose st :
  outcome (SetupLogging fs verbose st) <> Returned None ->
  responseLogFile (final (SetupLogging fs verbose st)) = responseLogFile st.
Proof.
  destruct (SetupLogging_shape fs verbose st)
    as (l & pre & st1 & _ & _ & Hlog & _ & Hresp & Hcases).
  destruct Hcases as [(name & h & _ & ->)|[(name & h & e & _ & ->)
                     |(err & msg & _ & _ & ->)]]; cbn; intros Hne;
    try exact Hresp.
  destruct (setupChannels_summary fs st1 l Hlog) as (_ & _ & _ & Hfail & _).
  rewrite (Hfail Hne). exact Hresp.
Qed.

(** X13. If [SetupLogging] found a channel's environment variable unset,
    that channel's handle is, at the end of the call, what it was before. *)
Theorem SetupLogging_unset_variable_keeps_handle fs verbose st :
  (In (EvLookupEnv "MONACO_REQUEST_LOG" None)
      (events (SetupLogging fs verbose st)) ->
   requestLogFile (final (SetupLogging fs verbose st)) = requestLogFile st)
  /\ (In (EvLookupEnv "MONACO_RESPONSE_LOG" None)
         (events (SetupLogging fs verbose st)) ->
      responseLogFile (final (SetupLogging fs verbose st)) = responseLogFile st).
Proof. exact (SetupLogging_unset_lookup_keeps_handle fs verbose st). Qed.

(** X14. Whatever its outcome, [SetupLogging] first calls [log.New] and
    leaves the logger it got in [Log]. *)
Theorem SetupLogging_installs_the_new_logger fs verbose st :
  exists l,
    head (events (SetupLogging fs verbose st)) = Some (EvLogNew l)
    /\ Log (final (SetupLogging fs verbose st)) = Some l.
Proof.
  destruct (SetupLogging_shape fs verbose st)
    as (l & pre & st1 & Hhead & _ & Hlog & _ & _ & Hcases).
  exists l.
  destruct Hcases as [(name & h & _ & ->)|[(name & h & e & _ & ->)
                     |(err & msg & _ & _ & ->)]]; cbn;
    try (split; assumption).
  destruct (setupChannels_summary fs st1 l Hlog) as (_ & _ & Hl & _).
  split; [|congruence].
  destruct pre; [discriminate Hhead|exact Hhead].
Qed.

(** X15. [SetupLogging] returns nil only after the log file was opened
    without error and both environment variables were looked up. *)
Theorem SetupLogging_success_consulted_both_variables fs verbose st :
  outcome (SetupLogging fs verbose st) = Returned None ->
  (exists name h,
      In (EvOpenFile fs name (Z.lor (Z.lor os.O_CREATE os.O_WRONLY) os.O_APPEND)
                     perm_0666 (h, None))
         (events (SetupLogging fs verbose st)))
  /\ (exists v, In (EvLookupEnv "MONACO_REQUEST_LOG" v)
                   (events (SetupLogging fs verbose st)))
  /\ (exists v, In (EvLookupEnv "MONACO_RESPONSE_LOG" v)
                   (events (SetupLogging fs verbose st))).
Proof.
  destruct (SetupLogging_shape fs verbose st)
    as (l & pre & st1 & _ & _ & Hlog & _ & _ & Hcases).
  destruct Hcases as [(name & h & Hf & ->)|[(name & h & e & _ & ->)
                     |(err & msg & _ & _ & ->)]]; cbn; intros Ho;
    try discriminate Ho.
  destruct (setupChannels_summary fs st1 l Hlog)
    as (_ & _ & _ & _ & _ & _ & Hboth).
  destruct (Hboth Ho) as [[v1 Hv1] [v2 Hv2]].
  split_and!.
  - exists name, h. apply in_or_app. left.
    assert (Hin : In (EvOpenFile fs name log_file_flags perm_0666 (h, None))
                     (List.filter is_open pre))
      by (rewrite Hf; left; reflexivity).
    apply filter_In in Hin as [Hin _]. exact Hin.
  - exists v1. apply in_or_app. auto.
  - exists v2. apply in_or_app. auto.
Qed.

(** X7. Run with a logger in [Log], as [SetupLogging] runs it: when its
    variable is set to [path] and the initializer returns nil, [path] was resolved to an absolute path, the file at that path was
    opened (truncate, create, write-only, mode 0644) through [fs], and the
    handle the open returned is stored in the channel's variable; the
    channel is active exactly if that handle is not nil. *)
Theorem channel_setup_stores_the_opened_handle fs st l path :
  Log st = Some l ->
  (env_LookupEnv (world st) "MONACO_REQUEST_LOG" = Some path ->
   outcome (setupRequestLog fs st) = Returned None ->
   exists abs h,
     In (EvAbs path (abs, None)) (events (setupRequestLog fs st))
     /\ In (EvOpenFile fs abs (Z.lor (Z.lor os.O_TRUNC os.O_CREATE) os.O_WRONLY)
                       perm_0644 (h, None))
           (events (setupRequestLog fs st))
     /\ requestLogFile (final (setupRequestLog fs st)) = h
     /\ outcome (IsRequestLoggingActive (final (setupRequestLog fs st)))
        = Returned (match h with Some _ => true | None => false end))
  /\ (env_LookupEnv (world st) "MONACO_RESPONSE_LOG" = Some path ->
      outcome (setupResponseLog fs st) = Returned None ->
      exists abs h,
        In (EvAbs path (abs, None)) (events (setupResponseLog fs st))
        /\ In (EvOpenFile fs abs
                 (Z.lor (Z.lor os.O_TRUNC os.O_CREATE) os.O_WRONLY)
                 perm_0644 (h, None))
              (events (setupResponseLog fs st))
        /\ responseLogFile (final (setupResponseLog fs st)) = h
        /\ outcome (IsResponseLoggingActive (final (setupResponseLog fs st)))
           = Returned (match h with Some _ => true | None => false end)).
Proof.
  intros Hl. split; intros Hv.
  - rewrite (setupRequestLog_set fs st l path Hl Hv). cbn zeta.
    destruct (env_Abs (world st) path) as [p [e1|]]; cbn; [discriminate|].
    destruct (env_OpenFile _ fs p _ _) as [w2 [h [e1|]]]; cbn;
      [discriminate|].
    intros _. exists p, h. split_and!; auto 6 using in_eq, in_cons.
  - rewrite (setupResponseLog_set fs st l path Hl Hv). cbn zeta.
    destruct (env_Abs (world st) path) as [p [e1|]]; cbn; [discriminate|].
    destruct (env_OpenFile _ fs p _ _) as [w2 [h [e1|]]]; cbn;
      [discriminate|].
    intros _. exists p, h. split_and!; auto 6 using in_eq, in_cons.
Qed.

(** X8. Run with a logger in [Log], a channel initializer that returns an
    error leaves both handles as they were. *)
Theorem channel_setup_failure_keeps_handles fs st l e :
  Log st = Some l ->
  (outcome (setupRequestLog fs st) = Returned (Some e) ->
   requestLogFile (final (setupRequestLog fs st)) = requestLogFile st
   /\ responseLogFile (final (setupRequestLog fs st)) = responseLogFile st)
  /\ (outcome (setupResponseLog fs st) = Returned (Some e) ->
      requestLogFile (final (setupResponseLog fs st)) = requestLogFile st
      /\ responseLogFile (final (setupResponseLog fs st)) = responseLogFile st).
Proof.
  intros Hl.
  destruct (setupRequestLog_summary fs st l Hl) as (_ & _ & _ & Hr1 & Hf1 & _).
  destruct (setupResponseLog_summary fs st l Hl) as (_ & _ & _ & Hr2 & Hf2 & _).
  split; intros Ho; split; auto; [apply Hf1|apply Hf2]; congruence.
Qed.

(** X9. Whatever its outcome, a channel initializer never changes the
    other channel's handle, nor [Log]. *)
Theorem channel_setup_spares_the_other_channel fs st :
  responseLogFile (final (setupRequestLog fs st)) = responseLogFile st
  /\ Log (final (setupRequestLog fs st)) = Log st
  /\ requestLogFile (final (setupResponseLog fs st)) = requestLogFile st
  /\ Log (final (setupResponseLog fs st)) = Log st.
Proof.
  destruct (Log st) as [l|] eqn:Hl.
  - destruct (setupRequestLog_summary fs st l Hl) as (_ & _ & Hl1 & Hr1 & _).
    destruct (setupResponseLog_summary fs st l Hl) as (_ & _ & Hl2 & Hr2 & _).
    split_and!; congruence.
  - unfold setupRequestLog, setupResponseLog, prepareLogFile, os_LookupEnv,
      filepath_Abs, Log_Debug, Log_method, bind, gets, ret, abort, extern.
    cbn.
    destruct (env_LookupEnv (world st) "MONACO_REQUEST_LOG") as [p1|]; cbn;
      [destruct (env_Abs (world st) p1) as [a1 [e1|]]; cbn|];
      (destruct (env_LookupEnv (world st) "MONACO_RESPONSE_LOG") as [p2|]; cbn;
       [destruct (env_Abs (world st) p2) as [a2 [e2|]]; cbn|]);
      rewrite ?Hl; cbn; rewrite ?Hl; split_and!; reflexivity.
Qed.

End ActivationMore.

(* ===================================================================== *)
(** ** These properties on the concrete environments *)
(* ===================================================================== *)

Lemma recorders_call_serializer_and_own_file_only_witness :
  exists f,
    requestLogFile (Mem.active false false) = Some f
    /\ ((exists b r, EvSync (FileHandle 0) None
                     = EvDumpRequestOut Mem.json_request b r)
        \/ (exists s r, EvSync (FileHandle 0) None = EvWriteString f s r)
        \/ (exists r, EvSync (FileHandle 0) None = EvSync f r)).
Proof.
  apply (proj1 (recorders_call_serializer_and_own_file_only "abc123"
                  (Mem.active false false))
           Mem.json_request (EvSync (FileHandle 0) None)).
  vm_compute. repeat (first [left; reflexivity | right]).
Defined.

Lemma response_record_text_witness :
  exists b dump,
    ("abc123" = EmptyString
     /\ exists n,
          events (LogResponse "abc123" Mem.json_response (Mem.active false false))
          = [EvDumpResponse Mem.json_response b (dump, None);
             EvWriteString (FileHandle 1)
               (dump ++ LF ++ string_of_list_ascii (repeat "="%char 25) ++ LF)%string
               (n, None);
             EvSync (FileHandle 1) None])
    \/ ("abc123" <> EmptyString
        /\ exists n1 n2,
             events (LogResponse "abc123" Mem.json_response
                       (Mem.active false false))
             = [EvDumpResponse Mem.json_response b (dump, None);
                EvWriteString (FileHandle 1)
                  ("Request-ID: " ++ "abc123" ++ LF)%string (n1, None);
                EvWriteString (FileHandle 1)
                  (dump ++ LF ++ string_of_list_ascii (repeat "="%char 25)
                   ++ LF)%string
                  (n2, None);
                EvSync (FileHandle 1) None]).
Proof.
  apply (response_record_text "abc123" Mem.json_response
           (Mem.active false false) (FileHandle 1)); reflexivity.
Defined.

Lemma long_content_type_gets_no_body_witness :
  head (events (LogRequest "abc123" Scenario.charset_request
                  (Mem.active false false)))
  = Some (EvDumpRequestOut Scenario.charset_request false
            (snd (env_DumpRequestOut (world (Mem.active false false))
                    Scenario.charset_request false)))
  /\ head (events (LogResponse "abc123" Scenario.charset_response
                     (Mem.active false false)))
     = Some (EvDumpResponse Scenario.charset_response false
               (snd (env_DumpResponse (world (Mem.active false false))
                       Scenario.charset_response false))).
Proof.
  split.
  - apply (proj1 (long_content_type_gets_no_body "abc123"
                    (Mem.active false false))
             Scenario.charset_request (FileHandle 0)
             ["application/json; charset=utf-8"]
             "application/json; charset=utf-8");
      first [reflexivity | vm_compute; lia].
  - apply (proj2 (long_content_type_gets_no_body "abc123"
                    (Mem.active false false))
             Scenario.charset_response (FileHandle 1)
             ["application/json; charset=utf-8"]
             "application/json; charset=utf-8");
      first [reflexivity | vm_compute; lia].
Defined.

Lemma log_file_failure_skips_the_channels_witness :
  outcome (SetupLogging (FsObject 0) false (Mem.start Scenario.log_locked))
  = Returned (Some (Err "permission denied"))
  /\ requestLogFile (final (SetupLogging (FsObject 0) false
                              (Mem.start Scenario.log_locked)))
     = requestLogFile (Mem.start Scenario.log_locked)
  /\ responseLogFile (final (SetupLogging (FsObject 0) false
                               (Mem.start Scenario.log_locked)))
     = responseLogFile (Mem.start Scenario.log_locked)
  /\ forall k v,
       ~ In (EvLookupEnv k v)
            (events (SetupLogging (FsObject 0) false
                       (Mem.start Scenario.log_locked))).
Proof.
  apply (log_file_failure_skips_the_channels (FsObject 0) false
           (Mem.start Scenario.log_locked) (FsObject 0)
           ".logs/20200102-030405.log" perm_0666 None
           (Err "permission denied")).
  vm_compute. repeat (first [left; reflexivity | right]).
Defined.

Lemma SetupLogging_failure_keeps_response_handle_witness :
  responseLogFile (final (SetupLogging (FsObject 0) false
                            (Mem.start Mem.response_locked)))
  = responseLogFile (Mem.start Mem.response_locked).
Proof.
  apply (SetupLogging_failure_keeps_response_handle (FsObject 0) false
           (Mem.start Mem.response_locked)).
  vm_compute. discriminate.
Defined.

Lemma SetupLogging_unset_variable_keeps_handle_witness :
  requestLogFile (final (SetupLogging (FsObject 0) false (Mem.start Mem.quiet)))
  = requestLogFile (Mem.start Mem.quiet)
  /\ responseLogFile (final (SetupLogging (FsObject 0) false
                               (Mem.start Scenario.request_only)))
     = responseLogFile (Mem.start Scenario.request_only).
Proof.
  split.
  - apply (proj1 (SetupLogging_unset_variable_keeps_handle (FsObject 0) false
                    (Mem.start Mem.quiet))).
    vm_compute. repeat (first [left; reflexivity | right]).
  - apply (proj2 (SetupLogging_unset_variable_keeps_handle (FsObject 0) false
                    (Mem.start Scenario.request_only))).
    vm_compute. repeat (first [left; reflexivity | right]).
Defined.

Lemma SetupLogging_success_consulted_both_variables_witness :
  (exists name h,
      In (EvOpenFile (FsObject 0) name
            (Z.lor (Z.lor os.O_CREATE os.O_WRONLY) os.O_APPEND)
            perm_0666 (h, None))
         (events (SetupLogging (FsObject 0) true (Mem.start Mem.both_requested))))
  /\ (exists v, In (EvLookupEnv "MONACO_REQUEST_LOG" v)
                   (events (SetupLogging (FsObject 0) true
                              (Mem.start Mem.both_requested))))
  /\ (exists v, In (EvLookupEnv "MONACO_RESPONSE_LOG" v)
                   (events (SetupLogging (FsObject 0) true
                              (Mem.start Mem.both_requested)))).
Proof.
  apply (SetupLogging_success_consulted_both_variables (FsObject 0) true
           (Mem.start Mem.both_requested)).
  reflexivity.
Defined.

Lemma channel_setup_stores_the_opened_handle_witness :
  (exists abs h,
      In (EvAbs "req.log" (abs, None))
         (events (setupRequestLog (FsObject 0)
                    (Scenario.started Mem.both_requested)))
      /\ In (EvOpenFile (FsObject 0) abs
               (Z.lor (Z.lor os.O_TRUNC os.O_CREATE) os.O_WRONLY)
               perm_0644 (h, None))
            (events (setupRequestLog (FsObject 0)
                       (Scenario.started Mem.both_requested)))
      /\ requestLogFile (final (setupRequestLog (FsObject 0)
                                  (Scenario.started Mem.both_requested))) = h
      /\ outcome (IsRequestLoggingActive
                    (final (setupRequestLog (FsObject 0)
                              (Scenario.started Mem.both_requested))))
         = Returned (match h with Some _ => true | None => false end))
  /\ (exists abs h,
         In (EvAbs "resp.log" (abs, None))
            (events (setupResponseLog (FsObject 0)
                       (Scenario.started Mem.both_requested)))
         /\ In (EvOpenFile (FsObject 0) abs
                  (Z.lor (Z.lor os.O_TRUNC os.O_CREATE) os.O_WRONLY)
                  perm_0644 (h, None))
               (events (setupResponseLog (FsObject 0)
                          (Scenario.started Mem.both_requested)))
         /\ responseLogFile (final (setupResponseLog (FsObject 0)
                                      (Scenario.started Mem.both_requested)))
            = h
         /\ outcome (IsResponseLoggingActive
                       (final (setupResponseLog (FsObject 0)
                                 (Scenario.started Mem.both_requested))))
            = Returned (match h with Some _ => true | None => false end)).
Proof.
  split.
  - apply (proj1 (channel_setup_stores_the_opened_handle (FsObject 0)
                    (Scenario.started Mem.both_requested) (LoggerObject 0)
                    "req.log" eq_refl)); reflexivity.
  - apply (proj2 (channel_setup_stores_the_opened_handle (FsObject 0)
                    (Scenario.started Mem.both_requested) (LoggerObject 0)
                    "resp.log" eq_refl)); reflexivity.
Defined.

Lemma channel_setup_failure_keeps_handles_witness :
  (requestLogFile (final (setupRequestLog (FsObject 0)
                            (Scenario.started Scenario.no_cwd)))
   = requestLogFile (Scenario.started Scenario.no_cwd)
   /\ responseLogFile (final (setupRequestLog (FsObject 0)
                                (Scenario.started Scenario.no_cwd)))
      = responseLogFile (Scenario.started Scenario.no_cwd))
  /\ (requestLogFile (final (setupResponseLog (FsObject 0)
                               (Scenario.started Mem.response_locked)))
      = requestLogFile (Scenario.started Mem.response_locked)
      /\ responseLogFile (final (setupResponseLog (FsObject 0)
                                   (Scenario.started Mem.response_locked)))
         = responseLogFile (Scenario.started Mem.response_locked)).
Proof.
  split.
  - apply (proj1 (channel_setup_failure_keeps_handles (FsObject 0)
                    (Scenario.started Scenario.no_cwd) (LoggerObject 0)
                    (Err "getwd: no such file or directory") eq_refl)).
    reflexivity.
  - apply (proj2 (channel_setup_failure_keeps_handles (FsObject 0)
                    (Scenario.started Mem.response_locked) (LoggerObject 0)
                    (Err "permission denied") eq_refl)).
    reflexivity.
Defined.
